(** * BioReason monitoring dashboard: a shallow embedding of the App component

    The App component (src/components/ExperimentTimeline.tsx, from line 151,
    and the older variant src/unnamed/part_000) is a React function component.
    We embed it as an explicit state machine:
    - the React state of one render is the record [UI];
    - refs, DOM elements and media devices are the record [Dom], timers and
      the dependency arrays of the effects the record [Hooks], outstanding
      promises the record [Work];
    - a closure created during a render captures the [UI] of that render;
    - after each event handler React re-renders, commits the refs of the
      elements it mounts or unmounts, then runs the effects whose
      dependency arrays changed (all cleanups first, then all setups).

    JS numbers that hold telemetry are IEEE-754 doubles, Rocq's primitive
    floats; epoch times are integers in milliseconds. *)

From Stdlib Require Import String Ascii ZArith List Bool Lia Sorted.
From Stdlib Require Floats.
Import (notations) PrimFloat.
Local Set Warnings "-inexact-float".
Import ListNotations.
Open Scope string_scope.
Open Scope Z_scope.

(* ------------------------------------------------------------------ *)
(** ** Strings: number rendering used by the augmented context *)

Definition nl : string := String (ascii_of_nat 10) EmptyString.

Definition digit (k : Z) : ascii := ascii_of_nat (48 + Z.to_nat k).

Definition is_digit (c : ascii) : bool :=
  (48 <=? nat_of_ascii c)%nat && (nat_of_ascii c <=? 57)%nat.

Arguments digit : simpl never.
Arguments is_digit : simpl never.

(** [pad n k]: the [n] last decimal digits of [k >= 0], zero-padded. *)
Fixpoint pad (n : nat) (k : Z) : string :=
  match n with
  | O => EmptyString
  | S n' => pad n' (k / 10) ++ String (digit (k mod 10)) EmptyString
  end.

(** Decimal rendering of a non-negative integer (no leading zeros). *)
Fixpoint dec_digits (fuel : nat) (k : Z) : string :=
  match fuel with
  | O => EmptyString
  | S f =>
      if k <? 10 then String (digit k) EmptyString
      else dec_digits f (k / 10) ++ String (digit (k mod 10)) EmptyString
  end.

Definition z_to_dec (k : Z) : string := dec_digits (S (Z.to_nat (Z.log2 k))) k.

(** The exact value of a finite double [m * 2^e] (as [Prim2SF] gives it),
    written as the fraction [num / den]. *)
Definition exact_value (m : positive) (e : Z) : Z * Z :=
  (Zpos m * 2 ^ Z.max 0 e, 2 ^ Z.max 0 (- e)).

(** The double nearest to the integer [v], ties to even. *)
Definition to_double (v : Z) : SpecFloat.spec_float :=
  SpecFloat.binary_normalize FloatOps.prec FloatOps.emax v 0 false.

(** For [Number::toString] (ECMA-262, Number::toString step 5) on a double
    [x] whose value is the integer [N] of [D] digits: the [k]-digit
    significands [s] with [s * 10^(D-k)] next to [N] that give back [x];
    of those, the one closest to [N], the even one on a tie (the choice of
    the standard's note, which the engines make). The result is [(s, n)]
    with [x = s * 10^(n-k)]. *)
Definition shortest_at (x : SpecFloat.spec_float) (N D k : Z) : option (Z * Z) :=
  let p := 10 ^ (D - k) in
  let lo := N / p in
  let hi := lo + 1 in
  let ok s := SpecFloat.SFeqb (to_double (s * p)) x in
  let hi_r := if hi =? 10 ^ k then (10 ^ (k - 1), D + 1) else (hi, D) in
  match ok lo, ok hi with
  | true, true =>
      let dl := N - lo * p in
      let dh := hi * p - N in
      if (dl <? dh) || ((dl =? dh) && Z.even lo) then Some (lo, D) else Some hi_r
  | true, false => Some (lo, D)
  | false, true => Some hi_r
  | false, false => None
  end.

(** The fewest digits: [k = 1, 2, ...]; [k = D] always succeeds. *)
Fixpoint shortest_from (fuel : nat) (x : SpecFloat.spec_float) (N D k : Z) : Z * Z :=
  match fuel with
  | O => (N, D)
  | S f =>
      match shortest_at x N D k with
      | Some r => r
      | None => shortest_from f x N D (k + 1)
      end
  end.

(** [Number::toString] on a double [x >= 1e21] of integer value [N]: as
    [n > 21], the exponent form [d.ddde+<n-1>] (step 9 of the algorithm;
    [de+<n-1>] for one digit). *)
Definition numberToString_large (x : SpecFloat.spec_float) (N : Z) : string :=
  let D := Z.of_nat (String.length (z_to_dec N)) in
  let '(sg, n) := shortest_from (Z.to_nat D) x N D 1 in
  let ds := z_to_dec sg in
  let ex := "e+" ++ z_to_dec (n - 1) in
  match ds with
  | String d (String _ _ as rest) => String d ("." ++ rest) ++ ex
  | _ => ds ++ ex
  end.

(** [Number.prototype.toFixed(2)] (ECMA-262): [NaN] and the infinities give
    [Number::toString]; otherwise the sign is taken off the exact value
    ([-0] has none); from [10^21] on the magnitude is rendered by
    [Number::toString]; below it, [n] is the integer for which [n / 100 - x]
    is closest to zero, the larger one on a tie, rendered with two
    decimals. *)
Definition toFixed2 (x : PrimFloat.float) : string :=
  match FloatOps.Prim2SF x with
  | SpecFloat.S754_nan => "NaN"
  | SpecFloat.S754_infinity sgn => (if sgn then "-" else "") ++ "Infinity"
  | SpecFloat.S754_zero _ => "0.00"
  | SpecFloat.S754_finite sgn m e =>
      let '(num, den) := exact_value m e in
      (if sgn then "-" else "") ++
      (if 10 ^ 21 * den <=? num
       then numberToString_large (SpecFloat.S754_finite false m e) (num / den)
       else
         let n := (200 * num + den) / (2 * den) in
         z_to_dec (n / 100) ++ "." ++ pad 2 (n mod 100))
  end.

(** The doubles [toFixed(2)] renders in fixed-point notation: finite and of
    magnitude below [10^21]. *)
Definition below_1e21 (x : PrimFloat.float) : bool :=
  match FloatOps.Prim2SF x with
  | SpecFloat.S754_zero _ => true
  | SpecFloat.S754_finite _ m e => let '(num, den) := exact_value m e in num <? 10 ^ 21 * den
  | _ => false
  end.

(** Days since 1970-01-01 to a proleptic Gregorian (year, month, day). *)
Definition civil_from_days (days : Z) : Z * Z * Z :=
  let z := days + 719468 in
  let era := z / 146097 in
  let doe := z - era * 146097 in
  let yoe := (doe - doe / 1460 + doe / 36524 - doe / 146096) / 365 in
  let y := yoe + era * 400 in
  let doy := doe - (365 * yoe + yoe / 4 - yoe / 100) in
  let mp := (5 * doy + 2) / 153 in
  let d := doy - (153 * mp + 2) / 5 + 1 in
  let m := if mp <? 10 then mp + 3 else mp - 9 in
  (if m <=? 2 then y + 1 else y, m, d).

Definition iso_year (y : Z) : string :=
  if (0 <=? y) && (y <=? 9999) then pad 4 y
  else (if y <? 0 then "-" else "+") ++ pad 6 (Z.abs y).

(** [Date.prototype.toISOString] on an epoch time in milliseconds:
    [YYYY-MM-DDTHH:mm:ss.sssZ]. *)
Definition toISOString (ms : Z) : string :=
  let days := ms / 86400000 in
  let msd := ms mod 86400000 in
  let '(y, m, d) := civil_from_days days in
  iso_year y ++ "-" ++ pad 2 m ++ "-" ++ pad 2 d ++ "T" ++
  pad 2 (msd / 3600000) ++ ":" ++ pad 2 ((msd / 60000) mod 60) ++ ":" ++
  pad 2 ((msd / 1000) mod 60) ++ "." ++ pad 3 (msd mod 1000) ++ "Z".

(* ------------------------------------------------------------------ *)
(** ** Data model (src/unnamed/part_001, the types module) *)

Inductive ExperimentStatus := NORMAL | WARNING | CRITICAL.

Record AnalysisResult := mkResult {
  status : ExperimentStatus;
  observation : string;
  deduction : string;
  recommendation : string
}.

Inductive ThinkingLevel := LOW | HIGH.

Record AnalysisState := mkAnalysis {
  isLoading : bool;
  result : option AnalysisResult;
  error : option string
}.

Record TelemetryData := mkTelemetry {
  temperature : PrimFloat.float;
  pressure : PrimFloat.float
}.

Record HistoryItem := mkItem {
  timestamp : Z;
  telemetry : TelemetryData;
  analysis : AnalysisResult
}.

(** The augmented context of [handleAnalyze]
    (ExperimentTimeline.tsx line 501):
    [`${context}\n\n[REAL-TIME TELEMETRY]\nTemperature: ${t.toFixed(2)} °C\n
      Pressure: ${p.toFixed(2)} kPa\nTimestamp: ${new Date().toISOString()}`]. *)
Definition augmentedContext (context : string) (t : TelemetryData) (now : Z) : string :=
  context ++ nl ++ nl ++ "[REAL-TIME TELEMETRY]" ++ nl ++
  "Temperature: " ++ toFixed2 (temperature t) ++ " °C" ++ nl ++
  "Pressure: " ++ toFixed2 (pressure t) ++ " kPa" ++ nl ++
  "Timestamp: " ++ toISOString now.

Example toFixed2_ex1 : toFixed2 24.5%float = "24.50". Proof. vm_compute; reflexivity. Qed.
Example toFixed2_ex2 : toFixed2 (-0.001)%float = "-0.00". Proof. vm_compute; reflexivity. Qed.
Example toFixed2_ex3 : toFixed2 1.005%float = "1.00". Proof. vm_compute; reflexivity. Qed.
Example toFixed2_ex4 : toFixed2 (-0)%float = "0.00". Proof. vm_compute; reflexivity. Qed.
Example toFixed2_ex5 : toFixed2 1e21%float = "1e+21". Proof. vm_compute; reflexivity. Qed.
Example toFixed2_ex6 : toFixed2 1.2345e22%float = "1.2345e+22". Proof. vm_compute; reflexivity. Qed.
Example toFixed2_ex7 : toFixed2 (-123.456)%float = "-123.46". Proof. vm_compute; reflexivity. Qed.
Example iso_ex1 : toISOString 0 = "1970-01-01T00:00:00.000Z". Proof. reflexivity. Qed.
Example iso_ex2 : toISOString 1760700000123 = "2025-10-17T11:20:00.123Z". Proof. vm_compute. reflexivity. Qed.

(* ------------------------------------------------------------------ *)
(** ** React state of the App (ExperimentTimeline.tsx lines 160-198) *)

Inductive InputMode := UPLOAD | CAMERA.
Inductive UploadType := IMAGE | VIDEO.

(** What [track.getCapabilities()] reports (zoom range, focus modes). *)
Record Capabilities := mkCaps {
  caps_zoom : option (Z * Z * Z);
  caps_focusModes : list string
}.

(** The state the spec calls the monitoring session, plus the inputs
    [handleAnalyze] reads. [uploadType = None] is [null]; [enablePreprocessing]
    is fixed to [true] by the source ([useState(true)] without a setter). *)
Record Session := mkSession {
  inputMode : InputMode;
  uploadType : option UploadType;
  isAutoMonitoring : bool;
  context : string;
  thinkingLevel : ThinkingLevel;
  enablePreprocessing : bool;
  imagePreview : option string;
  videoFileSrc : option string
}.

(** Camera state: [videoTrack] names the stream whose first track it is. *)
Record CameraUI := mkCameraUI {
  isCameraActive : bool;
  videoTrack : option nat;
  capabilities : option Capabilities
}.

(** The whole React state of one render ([telemetry] and [analysis] are
    renamed [cur_telemetry] and [cur_analysis] here, as [HistoryItem]
    already uses those names). *)
Record UI := mkUI {
  session : Session;
  camera : CameraUI;
  cur_telemetry : TelemetryData;
  cur_analysis : AnalysisState;
  history : list HistoryItem
}.

(* ------------------------------------------------------------------ *)
(** ** Runtime: DOM, media devices, hooks, outstanding work *)

(** What [canvas.getContext('2d')] / [drawImage] / [toDataURL] do for the
    current frame of a video element. *)
Inductive DrawOutcome := DrawOk (dataUrl : string) | NoContext | DrawThrows.

Record VideoElement := mkVideo {
  srcObject : option nat;       (* the MediaStream shown, by id *)
  readyState : nat;             (* HTMLMediaElement.readyState *)
  drawResult : DrawOutcome
}.

Definition freshVideo : VideoElement := mkVideo None 0 NoContext.

(** A MediaStream: one liveness flag per track ([true] until [stop()]). *)
Record MediaStream := mkStream {
  stream_id : nat;
  tracks : list bool
}.

Record Dom := mkDom {
  webcamRef : option VideoElement;     (* webcamRef.current *)
  fileVideoRef : option VideoElement;  (* fileVideoRef.current *)
  streams : list MediaStream;          (* every stream getUserMedia handed out *)
  pendingCamera : nat;                 (* unsettled getUserMedia calls *)
  pendingReads : nat                   (* unsettled FileReader reads *)
}.

(** The dependency values of the monitoring effect
    [[isAutoMonitoring, inputMode, uploadType, context, thinkingLevel,
      enablePreprocessing]]. *)
Definition MonitorDeps : Type :=
  (bool * InputMode * option UploadType * string * ThinkingLevel * bool)%type.

Record Hooks := mkHooks {
  intervals : list (nat * UI);          (* live setInterval timers and the render they close over *)
  nextTimer : nat;                      (* next timer id (browsers start at 1) *)
  monitoringIntervalRef : option nat;   (* monitoringIntervalRef.current *)
  deps_camera : option InputMode;       (* deps of the camera effect when it last ran *)
  deps_monitor : option MonitorDeps     (* deps of the monitoring effect when it last ran *)
}.

(** An outstanding run of [handleAnalyze]: before the client call it awaits
    preprocessing and [ensureBase64]; then it awaits [analyzeExperiment]
    with the augmented context it composed. *)
Inductive Stage := Preprocessing | Calling (augmented : string).

Record Job := mkJob {
  job_id : nat;
  job_ui : UI;          (* the render the running handleAnalyze closes over *)
  job_image : string;
  job_stage : Stage
}.

Record Work := mkWork {
  jobs : list Job;
  nextJob : nat;
  clientCalls : nat;    (* calls issued to analyzeExperiment so far *)
  cycles : nat;         (* invocations of handleAnalyze so far *)
  now : Z               (* Date.now() *)
}.

Record St := mkSt {
  ui : UI;
  dom : Dom;
  hooks : Hooks;
  work : Work
}.

(** Record updates. *)
Definition set_ui (u : UI) (s : St) : St := mkSt u (dom s) (hooks s) (work s).
Definition set_dom (d : Dom) (s : St) : St := mkSt (ui s) d (hooks s) (work s).
Definition set_hooks (h : Hooks) (s : St) : St := mkSt (ui s) (dom s) h (work s).
Definition set_work (w : Work) (s : St) : St := mkSt (ui s) (dom s) (hooks s) w.

Definition with_session (x : Session) (u : UI) : UI :=
  mkUI x (camera u) (cur_telemetry u) (cur_analysis u) (history u).
Definition with_camera (c : CameraUI) (u : UI) : UI :=
  mkUI (session u) c (cur_telemetry u) (cur_analysis u) (history u).
Definition with_telemetry (t : TelemetryData) (u : UI) : UI :=
  mkUI (session u) (camera u) t (cur_analysis u) (history u).
Definition with_analysis (a : AnalysisState) (u : UI) : UI :=
  mkUI (session u) (camera u) (cur_telemetry u) a (history u).
Definition with_history (l : list HistoryItem) (u : UI) : UI :=
  mkUI (session u) (camera u) (cur_telemetry u) (cur_analysis u) l.

Definition with_auto (b : bool) (x : Session) : Session :=
  mkSession (inputMode x) (uploadType x) b (context x) (thinkingLevel x)
    (enablePreprocessing x) (imagePreview x) (videoFileSrc x).

(** [setIsAutoMonitoring(b)] and [setAnalysis(a)]. *)
Definition setIsAutoMonitoring (b : bool) (s : St) : St :=
  set_ui (with_session (with_auto b (session (ui s))) (ui s)) s.
Definition setAnalysis (a : AnalysisState) (s : St) : St :=
  set_ui (with_analysis a (ui s)) s.

(* ------------------------------------------------------------------ *)
(** ** Decidable equalities used by the dependency arrays *)

Definition InputMode_eqb (a b : InputMode) : bool :=
  match a, b with UPLOAD, UPLOAD | CAMERA, CAMERA => true | _, _ => false end.
Definition UploadType_eqb (a b : UploadType) : bool :=
  match a, b with IMAGE, IMAGE | VIDEO, VIDEO => true | _, _ => false end.
Definition ThinkingLevel_eqb (a b : ThinkingLevel) : bool :=
  match a, b with LOW, LOW | HIGH, HIGH => true | _, _ => false end.
Definition opt_eqb {A} (eqb : A -> A -> bool) (a b : option A) : bool :=
  match a, b with
  | Some x, Some y => eqb x y
  | None, None => true
  | _, _ => false
  end.

Definition MonitorDeps_eqb (a b : MonitorDeps) : bool :=
  let '(a1, a2, a3, a4, a5, a6) := a in
  let '(b1, b2, b3, b4, b5, b6) := b in
  Bool.eqb a1 b1 && InputMode_eqb a2 b2 && opt_eqb UploadType_eqb a3 b3 &&
  String.eqb a4 b4 && ThinkingLevel_eqb a5 b5 && Bool.eqb a6 b6.

Definition monitor_deps (u : UI) : MonitorDeps :=
  let x := session u in
  (isAutoMonitoring x, inputMode x, uploadType x, context x, thinkingLevel x,
   enablePreprocessing x).

Definition isSome {A} (o : option A) : bool := match o with Some _ => true | None => false end.

(** JS truthiness of a [string | null]. *)
Definition truthy_str (o : option string) : bool :=
  match o with Some v => negb (String.eqb v "") | None => false end.

Definition is_video (o : option UploadType) : bool :=
  match o with Some VIDEO => true | _ => false end.

(** [isMonitoringCapable] / [canMonitor] (lines 533 and 565). *)
Definition isMonitoringCapable (x : Session) : bool :=
  match inputMode x with CAMERA => true | UPLOAD => is_video (uploadType x) end.

(* ------------------------------------------------------------------ *)
(** ** Frame capture and camera (lines 226-278, 331-363) *)

(** The element [captureFrame] reads (lines 333-339): the
    [inputMode]/[uploadType] it tests are those of the render it was created
    in; the element itself is read from the ref at call time. *)
Definition frameSource (u : UI) (d : Dom) : option VideoElement :=
  let x := session u in
  match inputMode x with
  | CAMERA => webcamRef d
  | UPLOAD => if is_video (uploadType x) then fileVideoRef d else None
  end.

(** [captureFrame]: the canvas work sits in a [try] whose [catch] returns
    [null]. *)
Definition captureFrame (u : UI) (d : Dom) : option string :=
  match frameSource u d with
  | None => None
  | Some v =>
      if (readyState v <? 2)%nat then None
      else match drawResult v with
           | DrawOk url => Some url
           | NoContext => None
           | DrawThrows => None
           end
  end.

Definition stop_stream (sid : nat) (l : list MediaStream) : list MediaStream :=
  map (fun m => if Nat.eqb (stream_id m) sid
                then mkStream sid (map (fun _ => false) (tracks m)) else m) l.

(** [stopCamera]. *)
Definition stopCamera (s : St) : St :=
  let d := dom s in
  match webcamRef d with
  | None => s
  | Some v =>
      let s :=
        match srcObject v with
        | Some sid =>
            set_dom (mkDom (Some (mkVideo None (readyState v) (drawResult v)))
                       (fileVideoRef d) (stop_stream sid (streams d))
                       (pendingCamera d) (pendingReads d)) s
        | None => s
        end in
      set_ui (with_camera (mkCameraUI false None None) (ui s)) s
  end.

(** [startCamera] up to its first [await]: the [getUserMedia] request is
    now outstanding; its continuation is the [CameraGranted] /
    [CameraDenied] event below. *)
Definition startCamera (s : St) : St :=
  let d := dom s in
  set_dom (mkDom (webcamRef d) (fileVideoRef d) (streams d)
             (S (pendingCamera d)) (pendingReads d)) s.

(* ------------------------------------------------------------------ *)
(** ** handleAnalyze (lines 469-528) *)

(** [handleAnalyze(manualImage)] run by the closure of render [u], up to its
    first [await]. On the early return nothing changes; otherwise the
    loading flag is set (functional update on the current state) and the
    rest of the run becomes an outstanding [Job]. *)
(** Lines 470-481: where the image comes from. *)
Definition imageToAnalyze (u : UI) (manualImage : option string) (d : Dom) : option string :=
  let x := session u in
  match inputMode x with
  | CAMERA => captureFrame u d
  | UPLOAD =>
      if is_video (uploadType x) then captureFrame u d
      else if truthy_str manualImage then manualImage else imagePreview x
  end.

Definition handleAnalyze (u : UI) (manualImage : option string) (s : St) : St :=
  let x := session u in
  let image := imageToAnalyze u manualImage (dom s) in
  match image with
  | Some img =>
      if negb (truthy_str image) || String.eqb (context x) "" then s
      else
        let a := cur_analysis (ui s) in
        let s := setAnalysis (mkAnalysis true (result a) None) s in
        let w := work s in
        set_work (mkWork (jobs w ++ [mkJob (nextJob w) u img Preprocessing])
                    (S (nextJob w)) (clientCalls w) (cycles w) (now w)) s
  | None => s
  end.

(** A call of [handleAnalyze()] from a handler, effect or timer; [cycles]
    counts these calls. *)
Definition invokeAnalyze (u : UI) (s : St) : St :=
  let w := work s in
  handleAnalyze u None
    (set_work (mkWork (jobs w) (nextJob w) (clientCalls w) (S (cycles w)) (now w)) s).

Definition errorMessage (msg : string) : string :=
  if String.eqb msg "" then "An unexpected error occurred." else msg.

(* ------------------------------------------------------------------ *)
(** ** Timers and effects (lines 316-329, 530-553) *)

Definition clearInterval (id : nat) (s : St) : St :=
  let h := hooks s in
  set_hooks (mkHooks (filter (fun p => negb (Nat.eqb (fst p) id)) (intervals h))
               (nextTimer h) (monitoringIntervalRef h) (deps_camera h)
               (deps_monitor h)) s.

(** Setup of the camera effect, deps [[inputMode]], in render [u0]. *)
Definition cameraEffect (u0 : UI) (s : St) : St :=
  match inputMode (session u0) with
  | CAMERA => setIsAutoMonitoring true (startCamera s)
  | UPLOAD =>
      let s := stopCamera s in
      if is_video (uploadType (session u0)) then s else setIsAutoMonitoring false s
  end.

(** Its cleanup [() => stopCamera()]. *)
Definition cameraCleanup (s : St) : St := stopCamera s.

(** Setup of the monitoring effect in render [u0]: analyse at once and
    arm a 5 s interval whose callback closes over [u0]. *)
Definition monitorEffect (u0 : UI) (s : St) : St :=
  let x := session u0 in
  if isAutoMonitoring x && isMonitoringCapable x then
    let s := invokeAnalyze u0 s in
    let h := hooks s in
    set_hooks (mkHooks (intervals h ++ [(nextTimer h, u0)]) (S (nextTimer h))
                 (Some (nextTimer h)) (deps_camera h) (deps_monitor h)) s
  else
    match monitoringIntervalRef (hooks s) with
    | Some id => clearInterval id s
    | None => s
    end.

(** Its cleanup. *)
Definition monitorCleanup (s : St) : St :=
  match monitoringIntervalRef (hooks s) with
  | Some id => clearInterval id s
  | None => s
  end.

(** The interval callback of render [u0]:
    [if (!analysis.isLoading) handleAnalyze()], with [analysis] the value
    of render [u0]. *)
Definition monitorTick (u0 : UI) (s : St) : St :=
  if isLoading (cur_analysis u0) then s else invokeAnalyze u0 s.

(* ------------------------------------------------------------------ *)
(** ** Rendering: refs commit, effects, settling *)

(** The uploaded-video element is rendered in UPLOAD mode when
    [uploadType === 'VIDEO' && videoFileSrc]. *)
Definition fileVideoShown (x : Session) : bool :=
  match inputMode x with
  | UPLOAD => is_video (uploadType x) && (if videoFileSrc x then true else false)
  | CAMERA => false
  end.

(** Commit phase: the [<video ref={webcamRef}>] exists only in CAMERA mode;
    React attaches a ref to a mounted element and sets it to [null] when the
    element unmounts, before any passive effect of the commit runs. *)
Definition commit_refs (s : St) : St :=
  let x := session (ui s) in
  let d := dom s in
  let keep o := match o with Some v => v | None => freshVideo end in
  let wc := match inputMode x with CAMERA => Some (keep (webcamRef d)) | UPLOAD => None end in
  let fv := if fileVideoShown x then Some (keep (fileVideoRef d)) else None in
  set_dom (mkDom wc fv (streams d) (pendingCamera d) (pendingReads d)) s.

(** The passive effects of one commit: the cleanups of the effects whose
    dependencies changed ([c2], [c3]) and that ran before ([m2], [m3]),
    then their setups, in declaration order. *)
Definition run_effects (u0 : UI) (c2 c3 m2 m3 : bool) (s : St) : St :=
  let s := if c2 && m2 then cameraCleanup s else s in
  let s := if c3 && m3 then monitorCleanup s else s in
  let s := if c2 then cameraEffect u0 s else s in
  if c3 then monitorEffect u0 s else s.

(** One render: commit the refs, run the effects whose dependency arrays
    changed since their last run, and record the new dependency arrays. *)
Definition render_round (s : St) : St :=
  let s := commit_refs s in
  let u0 := ui s in
  let h0 := hooks s in
  let c2 := negb (opt_eqb InputMode_eqb (deps_camera h0) (Some (inputMode (session u0)))) in
  let c3 := negb (opt_eqb MonitorDeps_eqb (deps_monitor h0) (Some (monitor_deps u0))) in
  let s := run_effects u0 c2 c3 (isSome (deps_camera h0)) (isSome (deps_monitor h0)) s in
  let h := hooks s in
  set_hooks (mkHooks (intervals h) (nextTimer h) (monitoringIntervalRef h)
               (Some (inputMode (session u0))) (Some (monitor_deps u0))) s.

Definition refs_consistent (s : St) : bool :=
  let x := session (ui s) in
  Bool.eqb (isSome (webcamRef (dom s))) (InputMode_eqb (inputMode x) CAMERA) &&
  Bool.eqb (isSome (fileVideoRef (dom s))) (fileVideoShown x).

(** No render pending: refs match the state and no effect is due. *)
Definition stable (s : St) : bool :=
  refs_consistent s &&
  opt_eqb InputMode_eqb (deps_camera (hooks s)) (Some (inputMode (session (ui s)))) &&
  opt_eqb MonitorDeps_eqb (deps_monitor (hooks s)) (Some (monitor_deps (ui s))).

Fixpoint settle (fuel : nat) (s : St) : St :=
  match fuel with
  | O => s
  | S f => if stable s then s else settle f (render_round s)
  end.

(* ------------------------------------------------------------------ *)
(** ** Events: user actions and settling of outstanding work *)

Inductive Event :=
  | SetContext (c : string)                 (* Sidebar textarea *)
  | SetThinking (l : ThinkingLevel)         (* Sidebar toggle *)
  | TelemetryTick (t : TelemetryData)       (* simulated drift or manual entry *)
  | LiveCameraClick                         (* handleLiveCameraClick *)
  | FileUploadClick                         (* handleFileUploadClick *)
  | ToggleMonitoring                        (* Pause / Resume Monitoring button *)
  | AnalyzeClick                            (* Capture & Analyze / Analyze Image *)
  | ChooseVideo (url : string)              (* handleFileChange, a video/* file *)
  | ChooseImage                             (* handleFileChange, any other file *)
  | ImageRead (dataUrl : string)            (* that FileReader's onloadend *)
  | GallerySelect (ctx img : string)        (* handleGallerySelect *)
  | CameraGranted (extra : nat) (caps : Capabilities)
                                            (* getUserMedia resolves, 1 + extra tracks *)
  | CameraDenied                            (* getUserMedia rejects *)
  | WebcamData (d : DrawOutcome)            (* the camera element has current data *)
  | FileVideoData (d : DrawOutcome)         (* the uploaded video has current data *)
  | Tick (id : nat)                         (* a setInterval timer fires *)
  | Advance (j : nat) (failure : option string)
                                            (* preprocessing and ensureBase64 settle *)
  | Resolve (j : nat) (r : AnalysisResult)  (* analyzeExperiment resolves *)
  | Reject (j : nat) (msg : string)         (* analyzeExperiment rejects *)
  | Clock (ms : nat).                       (* time passes *)

Definition find_job (k : nat) (l : list Job) : option Job :=
  find (fun j => Nat.eqb (job_id j) k) l.
Definition drop_job (k : nat) (l : list Job) : list Job :=
  filter (fun j => negb (Nat.eqb (job_id j) k)) l.
Definition find_interval (k : nat) (l : list (nat * UI)) : option UI :=
  match find (fun p => Nat.eqb (fst p) k) l with Some (_, u) => Some u | None => None end.

Definition set_session (x : Session) (s : St) : St := set_ui (with_session x (ui s)) s.

Definition with_jobs (l : list Job) (calls : nat) (s : St) : St :=
  let w := work s in set_work (mkWork l (nextJob w) calls (cycles w) (now w)) s.

Definition with_pending (cam reads : nat) (s : St) : St :=
  let d := dom s in
  set_dom (mkDom (webcamRef d) (fileVideoRef d) (streams d) cam reads) s.

Definition clearedAnalysis : AnalysisState := mkAnalysis false None None.

(** The continuation of a job after its preprocessing: on success the
    augmented context is composed from the job's render and the current
    time, and [analyzeExperiment] is called; on failure the [catch] block
    publishes the error. *)
Definition advanceJob (j : Job) (failure : option string) (s : St) : St :=
  let w := work s in
  match failure with
  | Some msg =>
      setAnalysis (mkAnalysis false None (Some (errorMessage msg)))
        (with_jobs (drop_job (job_id j) (jobs w)) (clientCalls w) s)
  | None =>
      let u := job_ui j in
      let ctx := augmentedContext (context (session u)) (cur_telemetry u) (now w) in
      let j' := mkJob (job_id j) u (job_image j) (Calling ctx) in
      with_jobs (map (fun i => if Nat.eqb (job_id i) (job_id j) then j' else i) (jobs w))
        (S (clientCalls w)) s
  end.

(** [analyzeExperiment] resolved: publish the result and append the entry
    (lines 509-518); [telemetry] is the value of the job's render. *)
Definition resolveJob (j : Job) (r : AnalysisResult) (s : St) : St :=
  let w := work s in
  let s := with_jobs (drop_job (job_id j) (jobs w)) (clientCalls w) s in
  let s := setAnalysis (mkAnalysis false (Some r) None) s in
  set_ui (with_history (history (ui s) ++ [mkItem (now w) (cur_telemetry (job_ui j)) r]) (ui s)) s.

(** [analyzeExperiment] rejected: the [catch] block (lines 520-527). *)
Definition rejectJob (j : Job) (msg : string) (s : St) : St :=
  let w := work s in
  setAnalysis (mkAnalysis false None (Some (errorMessage msg)))
    (with_jobs (drop_job (job_id j) (jobs w)) (clientCalls w) s).

Definition handle (e : Event) (s : St) : St :=
  let u := ui s in
  let x := session u in
  let d := dom s in
  let w := work s in
  match e with
  | SetContext c =>
      set_session (mkSession (inputMode x) (uploadType x) (isAutoMonitoring x) c
                     (thinkingLevel x) (enablePreprocessing x) (imagePreview x)
                     (videoFileSrc x)) s
  | SetThinking l =>
      set_session (mkSession (inputMode x) (uploadType x) (isAutoMonitoring x) (context x)
                     l (enablePreprocessing x) (imagePreview x) (videoFileSrc x)) s
  | TelemetryTick t => set_ui (with_telemetry t u) s
  | LiveCameraClick =>
      set_session (mkSession CAMERA (uploadType x) true (context x) (thinkingLevel x)
                     (enablePreprocessing x) (imagePreview x) (videoFileSrc x)) s
  | FileUploadClick =>
      set_session (mkSession UPLOAD (uploadType x) false (context x) (thinkingLevel x)
                     (enablePreprocessing x) (imagePreview x) (videoFileSrc x)) s
  | ToggleMonitoring =>
      (* the button is rendered only when [isMonitoringCapable] *)
      if isMonitoringCapable x then setIsAutoMonitoring (negb (isAutoMonitoring x)) s else s
  | AnalyzeClick =>
      (* [disabled={analysis.isLoading || (UPLOAD && !imagePreview && !videoFileSrc)}] *)
      if isLoading (cur_analysis u) ||
         (InputMode_eqb (inputMode x) UPLOAD && negb (truthy_str (imagePreview x))
          && negb (truthy_str (videoFileSrc x)))
      then s else invokeAnalyze u s
  | ChooseVideo url =>
      (* the file input is rendered only in UPLOAD mode *)
      match inputMode x with
      | CAMERA => s
      | UPLOAD =>
          set_session (mkSession (inputMode x) (Some VIDEO) false (context x) (thinkingLevel x)
                         (enablePreprocessing x) None (Some url))
            (setAnalysis clearedAnalysis s)
      end
  | ChooseImage =>
      match inputMode x with
      | CAMERA => s
      | UPLOAD =>
          let s := setAnalysis clearedAnalysis s in
          let s := set_session (mkSession (inputMode x) (uploadType x) (isAutoMonitoring x)
                                  (context x) (thinkingLevel x) (enablePreprocessing x)
                                  (imagePreview x) None) s in
          with_pending (pendingCamera d) (S (pendingReads d)) s
      end
  | ImageRead data =>
      match pendingReads d with
      | O => s
      | S n =>
          set_session (mkSession (inputMode x) (Some IMAGE) false (context x) (thinkingLevel x)
                         (enablePreprocessing x) (Some data) None)
            (with_pending (pendingCamera d) n s)
      end
  | GallerySelect c img =>
      let s := set_session (mkSession UPLOAD (Some IMAGE) false c (thinkingLevel x)
                              (enablePreprocessing x) (Some img) None) s in
      let s := setAnalysis clearedAnalysis s in
      set_ui (with_history [] (ui s)) s
  | CameraGranted extra caps =>
      match pendingCamera d with
      | O => s
      | S n =>
          let sid := length (streams d) in
          let attached :=
            match webcamRef d with
            | Some v => Some (mkVideo (Some sid) 0 (drawResult v))
            | None => None
            end in
          let s := set_dom (mkDom (match attached with Some v => Some v | None => webcamRef d end)
                              (fileVideoRef d) (streams d ++ [mkStream sid (repeat true (S extra))])
                              n (pendingReads d)) s in
          set_ui (with_camera (mkCameraUI (isSome attached || isCameraActive (camera u))
                                 (Some sid) (Some caps)) u) s
      end
  | CameraDenied =>
      match pendingCamera d with
      | O => s
      | S n => with_pending n (pendingReads d) s
      end
  | WebcamData r =>
      match webcamRef d with
      | Some (mkVideo (Some sid) _ _) =>
          set_dom (mkDom (Some (mkVideo (Some sid) 4 r)) (fileVideoRef d) (streams d)
                     (pendingCamera d) (pendingReads d)) s
      | _ => s
      end
  | FileVideoData r =>
      match fileVideoRef d with
      | Some v =>
          set_dom (mkDom (webcamRef d) (Some (mkVideo (srcObject v) 4 r)) (streams d)
                     (pendingCamera d) (pendingReads d)) s
      | None => s
      end
  | Tick k =>
      match find_interval k (intervals (hooks s)) with
      | Some u0 => monitorTick u0 s
      | None => s
      end
  | Advance k failure =>
      match find_job k (jobs w) with
      | Some j => match job_stage j with Preprocessing => advanceJob j failure s | Calling _ => s end
      | None => s
      end
  | Resolve k r =>
      match find_job k (jobs w) with
      | Some j => match job_stage j with Calling _ => resolveJob j r s | Preprocessing => s end
      | None => s
      end
  | Reject k msg =>
      match find_job k (jobs w) with
      | Some j => match job_stage j with Calling _ => rejectJob j msg s | Preprocessing => s end
      | None => s
      end
  | Clock ms =>
      set_work (mkWork (jobs w) (nextJob w) (clientCalls w) (cycles w) (now w + Z.of_nat ms)) s
  end.

(** One event followed by the renders it causes. *)
Definition step (s : St) (e : Event) : St := settle 3 (handle e s).

Definition run (s : St) (es : list Event) : St := fold_left step es s.

(** Initial state before the first render (lines 165-207). *)
Definition init : St :=
  mkSt (mkUI (mkSession UPLOAD None false "" HIGH true None None)
             (mkCameraUI false None None)
             (mkTelemetry 24.5%float 101.3%float)
             clearedAnalysis [])
       (mkDom None None [] 0 0)
       (mkHooks [] 1 None None None)
       (mkWork [] 0 0 0 1760700000000).

(** The mounted component: the first render and its effects. *)
Definition mounted : St := settle 3 init.

Definition reachable (s : St) : Prop := exists es, s = run mounted es.

(* ------------------------------------------------------------------ *)
(** ** Scenarios *)

(** Calls to [analyzeExperiment] issued and not yet settled. *)
Definition in_flight (s : St) : nat :=
  length (filter (fun j => match job_stage j with Calling _ => true | Preprocessing => false end)
            (jobs (work s))).

Definition noCaps : Capabilities := mkCaps None [].
Definition frameUrl : string := "data:image/jpeg;base64,QUJD".

(** Context set, live camera on and delivering frames, one tick of the
    monitoring interval, and the first call sent. *)
Definition trace_first_call : list Event :=
  [SetContext "test"; LiveCameraClick; CameraGranted 0 noCaps;
   WebcamData (DrawOk frameUrl); Tick 1; Advance 0 None].

(** The waiting job of [trace_first_call] and the context it sent, after the
    telemetry has drifted. *)
Definition trace_fidelity : list Event :=
  trace_first_call ++ [TelemetryTick (mkTelemetry 26.1%float 101.9%float)].

Definition job_fidelity : Job :=
  Eval vm_compute in
    match find_job 0 (jobs (work (run mounted trace_fidelity))) with
    | Some j => j
    | None => mkJob 0 (ui mounted) "" Preprocessing
    end.

Definition ctx_fidelity : string :=
  Eval vm_compute in match job_stage job_fidelity with Calling c => c | Preprocessing => "" end.

Definition okResult : AnalysisResult := mkResult NORMAL "clear" "stable" "continue".

(* ------------------------------------------------------------------ *)
(** ** Shapes of the rendered numbers *)

Fixpoint all_digits (s : string) : bool :=
  match s with
  | EmptyString => true
  | String c s' => is_digit c && all_digits s'
  end.

Definition digits_of_length (n : nat) (s : string) : bool :=
  Nat.eqb (String.length s) n && all_digits s.

(** An optional minus sign, at least one digit, a point, two digits. *)
Definition twoDecimal (s : string) : Prop :=
  exists sign ip fp, s = sign ++ ip ++ "." ++ fp /\ (sign = "" \/ sign = "-") /\
    ip <> "" /\ all_digits ip = true /\ digits_of_length 2 fp = true.

(** [YYYY], or a sign and six digits for the extended years. *)
Definition isoYear (y : string) : Prop :=
  digits_of_length 4 y = true \/
  exists sign ds, y = sign ++ ds /\ (sign = "+" \/ sign = "-") /\ digits_of_length 6 ds = true.

(** [YYYY-MM-DDTHH:mm:ss.sssZ]. *)
Definition iso8601 (s : string) : Prop :=
  exists y mo d h mi sec ms,
    s = y ++ "-" ++ mo ++ "-" ++ d ++ "T" ++ h ++ ":" ++ mi ++ ":" ++ sec ++ "." ++ ms ++ "Z" /\
    isoYear y /\ digits_of_length 2 mo = true /\ digits_of_length 2 d = true /\
    digits_of_length 2 h = true /\ digits_of_length 2 mi = true /\
    digits_of_length 2 sec = true /\ digits_of_length 3 ms = true.

(* ------------------------------------------------------------------ *)
(** ** preprocessImage (ExperimentTimeline.tsx lines 420-448, part_000 lines 131-154) *)

(** What the browser does with the image: whether it loads (else
    [onerror] fires), whether [getContext('2d')] gives a context, and the
    result of the drawing and [toDataURL], [None] when one of them throws. *)
Record ImageEnv := mkImageEnv {
  loads : bool;
  ctx2d : bool;
  draw : option string
}.

(** Completion of a JS block: normal with a value, or an exception. *)
Inductive Completion (A : Type) := Normal (v : A) | Throw.
Arguments Normal {A} v.
Arguments Throw {A}.

(** The promise of [preprocessImage]: resolved, or never settled. *)
Inductive PromiseState := Resolved (v : string) | Pending.

(** The [onload] body: the value it passes to [resolve], or the exception
    it raises. *)
Definition onload_body (env : ImageEnv) (source : string) : Completion string :=
  if ctx2d env then
    match draw env with Some url => Normal url | None => Throw end
  else Normal source.

Definition try_catch {A} (b : Completion A) (handler : Completion A) : Completion A :=
  match b with Normal v => Normal v | Throw => handler end.

(** An exception escaping an event handler goes to the window's error
    reporting: [resolve] is never called and the promise stays pending. *)
Definition settle_onload (c : Completion string) : PromiseState :=
  match c with Normal v => Resolved v | Throw => Pending end.

(** ExperimentTimeline.tsx: the [onload] body sits in [try { ... } catch (e)
    { resolve(source); }]. *)
Definition preprocessImage (env : ImageEnv) (source : string) : PromiseState :=
  if loads env then settle_onload (try_catch (onload_body env source) (Normal source))
  else Resolved source.

(** part_000: the same body without [try]/[catch]. *)
Definition preprocessImage_v0 (env : ImageEnv) (source : string) : PromiseState :=
  if loads env then settle_onload (onload_body env source)
  else Resolved source.

(** A decode or render failure: load error, no 2d context, or a throw. *)
Definition render_failed (env : ImageEnv) : bool :=
  negb (loads env) || negb (ctx2d env) || negb (isSome (draw env)).

(* ------------------------------------------------------------------ *)
(** ** The catch block of the older App (part_000 lines 184-192) *)

(** It publishes the error as the newer one does and then calls
    [setIsAutoMonitoring(false)] ("Stop monitoring on error"). *)
Definition rejectJob_v0 (j : Job) (msg : string) (s : St) : St :=
  setIsAutoMonitoring false (rejectJob j msg s).


(* ------------------------------------------------------------------ *)
(** ** Auxiliary notions of the proofs *)

(** The session with the auto-monitoring flag erased. *)
Definition core (x : Session) : Session := with_auto false x.

Definition ref_shape (d : Dom) : bool * bool :=
  (isSome (webcamRef d), isSome (fileVideoRef d)).

(** The effects never touch the session beyond the auto-monitoring flag,
    the presence of the refs, the history or the clock. *)
Definition frame_rel (a b : St) : Prop :=
  core (session (ui a)) = core (session (ui b)) /\
  ref_shape (dom a) = ref_shape (dom b) /\
  history (ui a) = history (ui b) /\
  now (work a) = now (work b).

(** A successful completion: [analyzeExperiment] resolving for a job that
    is waiting on it. *)
Definition succeeded (s : St) (e : Event) : bool :=
  match e with
  | Resolve k _ =>
      match find_job k (jobs (work s)) with
      | Some j => match job_stage j with Calling _ => true | Preprocessing => false end
      | None => false
      end
  | _ => false
  end.

(** The entry a completion appends. *)
Definition appended (s : St) (e : Event) : list HistoryItem :=
  match e with
  | Resolve k r =>
      match find_job k (jobs (work s)) with
      | Some j =>
          match job_stage j with
          | Calling _ => [mkItem (now (work s)) (cur_telemetry (job_ui j)) r]
          | Preprocessing => []
          end
      | None => []
      end
  | _ => []
  end.

Definition is_reset (e : Event) : bool :=
  match e with GallerySelect _ _ => true | _ => false end.

Definition elapsed (e : Event) : Z :=
  match e with Clock ms => Z.of_nat ms | _ => 0 end.

(** Successful completions since the last gallery selection. *)
Fixpoint completions (s : St) (es : list Event) (n : nat) : nat :=
  match es with
  | [] => n
  | e :: es' =>
      completions (step s e) es'
        (if is_reset e then O else if succeeded s e then S n else n)
  end.

Definition ledger_ok (s : St) : Prop :=
  Sorted Z.le (map timestamp (history (ui s))) /\
  Forall (fun it => timestamp it <= now (work s)) (history (ui s)).

Definition job_ok (j : Job) : Prop :=
  forall ctx, job_stage j = Calling ctx ->
  exists ts, ctx = augmentedContext (context (session (job_ui j))) (cur_telemetry (job_ui j)) ts.

Definition jobs_ok (s : St) : Prop := Forall job_ok (jobs (work s)).

Definition auto_gated (x : Session) : bool := implb (isAutoMonitoring x) (isMonitoringCapable x).

(** Every live interval is the one in [monitoringIntervalRef], was armed
    by the render whose dependencies the monitoring effect last saw, and
    that render was monitoring a capable source. *)
Definition intervals_ok (s : St) : Prop :=
  forall p, In p (intervals (hooks s)) ->
    monitoringIntervalRef (hooks s) = Some (fst p) /\
    deps_monitor (hooks s) = Some (monitor_deps (snd p)) /\
    isAutoMonitoring (session (snd p)) && isMonitoringCapable (session (snd p)) = true.

(* ================================================================== *)
(** * Properties *)

(** ** Decidable equalities reflect equality *)

Lemma InputMode_eqb_eq : forall a b, InputMode_eqb a b = true <-> a = b.
Proof. intros [] []; simpl; split; congruence. Qed.

Lemma opt_eqb_eq {A} (eqb : A -> A -> bool) :
  (forall a b, eqb a b = true <-> a = b) ->
  forall a b, opt_eqb eqb a b = true <-> a = b.
Proof.
  intros H [a|] [b|]; simpl; try (split; congruence).
  rewrite H. split; congruence.
Qed.

Lemma UploadType_eqb_eq : forall a b, UploadType_eqb a b = true <-> a = b.
Proof. intros [] []; simpl; split; congruence. Qed.

Lemma ThinkingLevel_eqb_eq : forall a b, ThinkingLevel_eqb a b = true <-> a = b.
Proof. intros [] []; simpl; split; congruence. Qed.

Lemma MonitorDeps_eqb_eq : forall a b, MonitorDeps_eqb a b = true <-> a = b.
Proof.
  intros [[[[[a1 a2] a3] a4] a5] a6] [[[[[b1 b2] b3] b4] b5] b6]; simpl.
  rewrite !andb_true_iff, eqb_true_iff, InputMode_eqb_eq,
    (opt_eqb_eq _ UploadType_eqb_eq), String.eqb_eq, ThinkingLevel_eqb_eq, eqb_true_iff.
  split.
  - intros [[[[[-> ->] ->] ->] ->] ->]; reflexivity.
  - intros E; inversion E; subst; tauto.
Qed.

Lemma MonitorDeps_eqb_refl : forall a, MonitorDeps_eqb a a = true.
Proof. intros a; apply MonitorDeps_eqb_eq; reflexivity. Qed.

Lemma InputMode_eqb_refl : forall a, InputMode_eqb a a = true.
Proof. intros a; apply InputMode_eqb_eq; reflexivity. Qed.

(** ** Which part of the state each piece of code touches *)



Create HintDb frame.

Ltac crush_matches :=
  repeat match goal with
         | |- context [match ?x with _ => _ end] => destruct x
         end; try reflexivity.

Lemma stopCamera_frame : forall s,
  session (ui (stopCamera s)) = session (ui s) /\
  ref_shape (dom (stopCamera s)) = ref_shape (dom s) /\
  hooks (stopCamera s) = hooks s /\ work (stopCamera s) = work s /\
  history (ui (stopCamera s)) = history (ui s) /\
  cur_analysis (ui (stopCamera s)) = cur_analysis (ui s).
Proof.
  intros [u d h w]; unfold stopCamera; simpl.
  destruct d as [[[[sid|] rs dr]|] fv st pc pr]; simpl; repeat split.
Qed.

Lemma startCamera_frame : forall s,
  ui (startCamera s) = ui s /\ ref_shape (dom (startCamera s)) = ref_shape (dom s) /\
  hooks (startCamera s) = hooks s /\ work (startCamera s) = work s.
Proof. intros [u d h w]; repeat split. Qed.

Lemma handleAnalyze_frame : forall u m s,
  session (ui (handleAnalyze u m s)) = session (ui s) /\
  camera (ui (handleAnalyze u m s)) = camera (ui s) /\
  history (ui (handleAnalyze u m s)) = history (ui s) /\
  dom (handleAnalyze u m s) = dom s /\ hooks (handleAnalyze u m s) = hooks s /\
  now (work (handleAnalyze u m s)) = now (work s).
Proof.
  intros u m [u' d h w]; unfold handleAnalyze; simpl.
  destruct (imageToAnalyze u m d) as [img|]; simpl; [|repeat split].
  destruct (negb _ || _); simpl; repeat split.
Qed.

Lemma invokeAnalyze_frame : forall u s,
  session (ui (invokeAnalyze u s)) = session (ui s) /\
  camera (ui (invokeAnalyze u s)) = camera (ui s) /\
  history (ui (invokeAnalyze u s)) = history (ui s) /\
  dom (invokeAnalyze u s) = dom s /\ hooks (invokeAnalyze u s) = hooks s /\
  now (work (invokeAnalyze u s)) = now (work s).
Proof.
  intros u s; unfold invokeAnalyze.
  destruct (handleAnalyze_frame u None
              (set_work (mkWork (jobs (work s)) (nextJob (work s)) (clientCalls (work s))
                           (S (cycles (work s))) (now (work s))) s)) as (A & B & C & D & E & F).
  rewrite A, B, C, D, E, F; destruct s; repeat split.
Qed.

Lemma clearInterval_frame : forall k s,
  ui (clearInterval k s) = ui s /\ dom (clearInterval k s) = dom s /\
  work (clearInterval k s) = work s /\
  deps_camera (hooks (clearInterval k s)) = deps_camera (hooks s) /\
  deps_monitor (hooks (clearInterval k s)) = deps_monitor (hooks s).
Proof. intros k [u d h w]; repeat split. Qed.

Lemma monitorCleanup_frame : forall s,
  ui (monitorCleanup s) = ui s /\ dom (monitorCleanup s) = dom s /\
  work (monitorCleanup s) = work s.
Proof.
  intros s; unfold monitorCleanup.
  destruct (monitoringIntervalRef (hooks s)); [destruct s; repeat split | repeat split].
Qed.

Lemma monitorEffect_frame : forall u0 s,
  session (ui (monitorEffect u0 s)) = session (ui s) /\
  camera (ui (monitorEffect u0 s)) = camera (ui s) /\
  history (ui (monitorEffect u0 s)) = history (ui s) /\
  dom (monitorEffect u0 s) = dom s /\
  now (work (monitorEffect u0 s)) = now (work s).
Proof.
  intros u0 s; unfold monitorEffect.
  destruct (isAutoMonitoring (session u0) && isMonitoringCapable (session u0)).
  - destruct (invokeAnalyze_frame u0 s) as (A & B & C & D & _ & F).
    destruct (invokeAnalyze u0 s); simpl in *; repeat split; assumption.
  - destruct (monitoringIntervalRef (hooks s)).
    + destruct (clearInterval_frame n s) as (A & B & C & _).
      rewrite A, B, C; repeat split.
    + repeat split.
Qed.

Lemma setIsAutoMonitoring_frame : forall b s,
  core (session (ui (setIsAutoMonitoring b s))) = core (session (ui s)) /\
  isAutoMonitoring (session (ui (setIsAutoMonitoring b s))) = b /\
  camera (ui (setIsAutoMonitoring b s)) = camera (ui s) /\
  history (ui (setIsAutoMonitoring b s)) = history (ui s) /\
  dom (setIsAutoMonitoring b s) = dom s /\ hooks (setIsAutoMonitoring b s) = hooks s /\
  work (setIsAutoMonitoring b s) = work s.
Proof. intros b [[[] c t a l] d h w]; repeat split. Qed.

Lemma cameraEffect_frame : forall u0 s,
  core (session (ui (cameraEffect u0 s))) = core (session (ui s)) /\
  ref_shape (dom (cameraEffect u0 s)) = ref_shape (dom s) /\
  history (ui (cameraEffect u0 s)) = history (ui s) /\
  intervals (hooks (cameraEffect u0 s)) = intervals (hooks s) /\
  monitoringIntervalRef (hooks (cameraEffect u0 s)) = monitoringIntervalRef (hooks s) /\
  work (cameraEffect u0 s) = work s.
Proof.
  intros u0 s; unfold cameraEffect.
  destruct (inputMode (session u0)).
  - destruct (stopCamera_frame s) as (A & B & C & D & E & _).
    destruct (is_video (uploadType (session u0))).
    + rewrite A, B, C, D, E; repeat split.
    + destruct (setIsAutoMonitoring_frame false (stopCamera s)) as (A' & _ & _ & C' & D' & E' & F').
      rewrite A', C', D', E', F', A, B, C, D, E; repeat split.
  - destruct (setIsAutoMonitoring_frame true (startCamera s)) as (A' & _ & _ & C' & D' & E' & F').
    destruct (startCamera_frame s) as (A & B & C & D).
    rewrite A', C', D', E', F', A, B, C, D; repeat split.
Qed.


Lemma frame_rel_refl : forall a, frame_rel a a.
Proof. intros a; repeat split. Qed.

Lemma frame_rel_trans : forall a b c, frame_rel a b -> frame_rel b c -> frame_rel a c.
Proof.
  intros a b c (A & B & C & D) (A' & B' & C' & D'); repeat split; congruence.
Qed.

Lemma frame_stopCamera : forall s, frame_rel s (stopCamera s).
Proof.
  intros s; destruct (stopCamera_frame s) as (A & B & C & D & E & _).
  repeat split; [rewrite A | rewrite B | rewrite E | rewrite D]; reflexivity.
Qed.

Lemma frame_cameraEffect : forall u0 s, frame_rel s (cameraEffect u0 s).
Proof.
  intros u0 s; destruct (cameraEffect_frame u0 s) as (A & B & C & _ & _ & F).
  repeat split; [rewrite A | rewrite B | rewrite C | rewrite F]; reflexivity.
Qed.

Lemma frame_monitorCleanup : forall s, frame_rel s (monitorCleanup s).
Proof.
  intros s; destruct (monitorCleanup_frame s) as (A & B & C).
  repeat split; [rewrite A | rewrite B | rewrite A | rewrite C]; reflexivity.
Qed.

Lemma frame_monitorEffect : forall u0 s, frame_rel s (monitorEffect u0 s).
Proof.
  intros u0 s; destruct (monitorEffect_frame u0 s) as (A & _ & C & D & E).
  repeat split; [rewrite A | rewrite D | rewrite C | rewrite E]; reflexivity.
Qed.

#[local] Hint Resolve frame_rel_refl frame_stopCamera frame_cameraEffect
  frame_monitorCleanup frame_monitorEffect : frame.

Lemma commit_refs_ui : forall s, ui (commit_refs s) = ui s.
Proof. reflexivity. Qed.
Lemma commit_refs_hooks : forall s, hooks (commit_refs s) = hooks s.
Proof. reflexivity. Qed.
Lemma commit_refs_work : forall s, work (commit_refs s) = work s.
Proof. reflexivity. Qed.

Lemma commit_refs_consistent : forall s, refs_consistent (commit_refs s) = true.
Proof.
  intros [u d h w]; unfold refs_consistent, commit_refs; simpl.
  destruct (inputMode (session u)), (fileVideoShown (session u)); reflexivity.
Qed.

Lemma refs_consistent_frame : forall a b, frame_rel a b ->
  refs_consistent a = refs_consistent b.
Proof.
  intros a b (A & B & _ & _).
  unfold refs_consistent, ref_shape in *.
  inversion B as [[B1 B2]]. rewrite B1, B2.
  assert (E1 : inputMode (session (ui a)) = inputMode (session (ui b)))
    by exact (f_equal inputMode A).
  assert (E2 : fileVideoShown (session (ui a)) = fileVideoShown (session (ui b))).
  { unfold fileVideoShown.
    rewrite E1, (f_equal uploadType A : uploadType (session (ui a)) = _),
      (f_equal videoFileSrc A : videoFileSrc (session (ui a)) = _).
    reflexivity. }
  rewrite E1, E2; reflexivity.
Qed.

Lemma run_effects_frame : forall u0 c2 c3 m2 m3 s,
  frame_rel s (run_effects u0 c2 c3 m2 m3 s).
Proof.
  intros u0 c2 c3 m2 m3 s; unfold run_effects, cameraCleanup.
  destruct c2, c3, m2, m3; simpl;
    repeat (eapply frame_rel_trans;
            [| first [ apply frame_monitorEffect | apply frame_cameraEffect
                     | apply frame_monitorCleanup | apply frame_stopCamera ]]);
    apply frame_rel_refl.
Qed.

(** What one render leaves behind. *)
Lemma render_round_frame : forall s, frame_rel (commit_refs s) (render_round s).
Proof.
  intros s; unfold render_round.
  match goal with
  | |- frame_rel _ (set_hooks _ (run_effects ?u ?a ?b ?c ?d ?t)) =>
      destruct (run_effects_frame u a b c d t) as (A & B & C & D)
  end.
  repeat split; simpl; assumption.
Qed.

Lemma render_round_deps : forall s,
  deps_camera (hooks (render_round s)) = Some (inputMode (session (ui s))) /\
  deps_monitor (hooks (render_round s)) = Some (monitor_deps (ui s)).
Proof. intros s; split; reflexivity. Qed.

Lemma render_round_inputMode : forall s,
  inputMode (session (ui (render_round s))) = inputMode (session (ui s)).
Proof.
  intros s; destruct (render_round_frame s) as (A & _).
  exact (eq_sym (f_equal inputMode A)).
Qed.

Lemma run_effects_no_camera_session : forall u0 c3 m2 m3 s,
  session (ui (run_effects u0 false c3 m2 m3 s)) = session (ui s).
Proof.
  intros u0 c3 m2 m3 s; unfold run_effects; simpl.
  destruct c3, m3; simpl;
    repeat first [ rewrite (proj1 (monitorEffect_frame _ _))
                 | rewrite (proj1 (monitorCleanup_frame _)) ]; reflexivity.
Qed.

Lemma render_round_session : forall s,
  deps_camera (hooks s) = Some (inputMode (session (ui s))) ->
  session (ui (render_round s)) = session (ui s).
Proof.
  intros s Hc; unfold render_round.
  cbn [commit_refs hooks ui set_dom]. rewrite Hc. cbn [opt_eqb].
  rewrite InputMode_eqb_refl. cbn [negb set_hooks ui].
  rewrite run_effects_no_camera_session; reflexivity.
Qed.

Lemma render_round_stable : forall s,
  deps_camera (hooks s) = Some (inputMode (session (ui s))) ->
  stable (render_round s) = true.
Proof.
  intros s Hc; unfold stable.
  rewrite <- (refs_consistent_frame _ _ (render_round_frame s)), commit_refs_consistent.
  destruct (render_round_deps s) as [-> ->].
  unfold monitor_deps; rewrite (render_round_session s Hc); cbn [opt_eqb].
  rewrite InputMode_eqb_refl, MonitorDeps_eqb_refl.
  reflexivity.
Qed.

(** React settles every event within two renders. *)
Lemma settle_stable : forall s, stable (settle 3 s) = true.
Proof.
  intros s; simpl.
  destruct (stable s) eqn:E0; [exact E0|].
  destruct (stable (render_round s)) eqn:E1; [exact E1|].
  assert (H : stable (render_round (render_round s)) = true).
  { apply render_round_stable.
    rewrite render_round_inputMode; apply render_round_deps. }
  rewrite H; exact H.
Qed.

Lemma reachable_stable : forall s, reachable s -> stable s = true.
Proof.
  intros s [es ->].
  assert (G : forall es s0, stable s0 = true -> stable (run s0 es) = true).
  { induction es0 as [|e es0 IH]; intros s0 H0; simpl; [exact H0|].
    apply IH; apply settle_stable. }
  apply G; apply settle_stable.
Qed.

(** ** The history ledger *)






Lemma settle_frame : forall n s,
  history (ui (settle n s)) = history (ui s) /\ now (work (settle n s)) = now (work s).
Proof.
  induction n as [|n IH]; intros s; simpl; [split; reflexivity|].
  destruct (stable s); [split; reflexivity|].
  destruct (IH (render_round s)) as [-> ->].
  destruct (render_round_frame s) as (_ & _ & C & D).
  rewrite <- C, <- D; split; reflexivity.
Qed.

Ltac fin := split; rewrite ?app_nil_r, ?Z.add_0_r; reflexivity.

Lemma handle_history_now : forall e s,
  history (ui (handle e s)) = ((if is_reset e then [] else history (ui s)) ++ appended s e)%list /\
  now (work (handle e s)) = now (work s) + elapsed e.
Proof.
  intros e s.
  destruct e; simpl; rewrite ?app_nil_r, ?Z.add_0_r;
    try (fin).
  - destruct (isMonitoringCapable _); [|fin].
    destruct (setIsAutoMonitoring_frame (negb (isAutoMonitoring (session (ui s)))) s)
      as (_ & _ & _ & -> & _ & _ & ->); fin.
  - destruct (_ || _); [fin|].
    destruct (invokeAnalyze_frame (ui s) s) as (_ & _ & -> & _ & _ & ->); fin.
  - destruct (inputMode (session (ui s))); fin.
  - destruct (inputMode (session (ui s))); fin.
  - destruct (pendingReads (dom s)); fin.
  - destruct (pendingCamera (dom s)); fin.
  - destruct (pendingCamera (dom s)); fin.
  - destruct (webcamRef (dom s)) as [[[]]|]; fin.
  - destruct (fileVideoRef (dom s)); fin.
  - destruct (find_interval id (intervals (hooks s))) as [u0|]; [|fin].
    unfold monitorTick; destruct (isLoading (cur_analysis u0)); [fin|].
    destruct (invokeAnalyze_frame u0 s) as (_ & _ & -> & _ & _ & ->); fin.
  - destruct (find_job j (jobs (work s))) as [jb|]; [|fin].
    destruct (job_stage jb); [|fin].
    unfold advanceJob; destruct failure; fin.
  - destruct (find_job j (jobs (work s))) as [jb|]; [|fin].
    destruct (job_stage jb); fin.
  - destruct (find_job j (jobs (work s))) as [jb|]; [|fin].
    destruct (job_stage jb); fin.
Qed.

Lemma step_history_now : forall s e,
  history (ui (step s e)) = ((if is_reset e then [] else history (ui s)) ++ appended s e)%list /\
  now (work (step s e)) = now (work s) + elapsed e.
Proof.
  intros s e; unfold step.
  destruct (settle_frame 3 (handle e s)) as [-> ->]; apply handle_history_now.
Qed.

Lemma appended_length : forall s e,
  length (appended s e) = if succeeded s e then 1%nat else 0%nat.
Proof.
  intros s []; simpl; try reflexivity.
  destruct (find_job j (jobs (work s))) as [jb|]; [destruct (job_stage jb)|]; reflexivity.
Qed.

Lemma Sorted_snoc : forall l x,
  Sorted Z.le l -> Forall (fun t => t <= x) l -> Sorted Z.le (l ++ [x]).
Proof.
  induction l as [|a l IH]; intros x Hs Hf; simpl.
  - repeat constructor.
  - inversion Hs as [|? ? Hs' Hd]; subst. inversion Hf as [|? ? Hax Hf']; subst.
    constructor; [apply IH; assumption|].
    destruct l as [|b l]; simpl; constructor.
    + exact Hax.
    + inversion Hd; assumption.
Qed.


Lemma elapsed_nonneg : forall e, 0 <= elapsed e.
Proof. intros []; simpl; lia. Qed.

Lemma step_ledger_ok : forall s e, ledger_ok s -> ledger_ok (step s e).
Proof.
  intros s e [Hs Hf]; destruct (step_history_now s e) as [Hh Hn].
  pose proof (elapsed_nonneg e) as He.
  assert (Hbase : Sorted Z.le (map timestamp (if is_reset e then [] else history (ui s))) /\
                  Forall (fun it => timestamp it <= now (work s)) (if is_reset e then [] else history (ui s))).
  { destruct (is_reset e); [split; constructor | split; assumption]. }
  destruct Hbase as [Hs0 Hf0].
  unfold ledger_ok; rewrite Hh, Hn.
  unfold appended; destruct e; rewrite ?app_nil_r;
    try (split; [exact Hs0 | eapply Forall_impl; [|exact Hf0]; intros it Hit; simpl in *; lia]).
  destruct (find_job j (jobs (work s))) as [jb|];
    [destruct (job_stage jb)|]; rewrite ?app_nil_r;
    try (split; [exact Hs0 | eapply Forall_impl; [|exact Hf0]; intros it Hit; simpl in *; lia]).
  split.
  - rewrite map_app; simpl. apply Sorted_snoc; [exact Hs0|].
    apply Forall_map. eapply Forall_impl; [|exact Hf0]; intros it Hit; exact Hit.
  - apply Forall_app; split.
    + eapply Forall_impl; [|exact Hf0]; intros it Hit; simpl in *; lia.
    + constructor; [simpl; lia | constructor].
Qed.

Lemma run_cons : forall s e es, run s (e :: es) = run (step s e) es.
Proof. reflexivity. Qed.

Lemma mounted_history : history (ui mounted) = [].
Proof. reflexivity. Qed.

(** ** Outstanding jobs: the context a waiting job sent *)



Lemma jobs_ok_work : forall a b, work a = work b -> jobs_ok b -> jobs_ok a.
Proof. intros a b E H; unfold jobs_ok; rewrite E; exact H. Qed.

Lemma handleAnalyze_jobs_ok : forall u m s, jobs_ok s -> jobs_ok (handleAnalyze u m s).
Proof.
  intros u m [u' d h w] H; unfold handleAnalyze, jobs_ok in *; simpl in *.
  destruct (imageToAnalyze u m d) as [img|]; [|exact H].
  destruct (negb _ || _); [exact H|]; simpl.
  apply Forall_app; split; [exact H|].
  constructor; [intros ctx E; discriminate E | constructor].
Qed.

Lemma invokeAnalyze_jobs_ok : forall u s, jobs_ok s -> jobs_ok (invokeAnalyze u s).
Proof.
  intros u s H; unfold invokeAnalyze; apply handleAnalyze_jobs_ok.
  destruct s; exact H.
Qed.

Lemma stopCamera_jobs_ok : forall s, jobs_ok s -> jobs_ok (stopCamera s).
Proof. intros s; apply jobs_ok_work, stopCamera_frame. Qed.

Lemma cameraEffect_jobs_ok : forall u0 s, jobs_ok s -> jobs_ok (cameraEffect u0 s).
Proof. intros u0 s; apply jobs_ok_work, cameraEffect_frame. Qed.

Lemma monitorCleanup_jobs_ok : forall s, jobs_ok s -> jobs_ok (monitorCleanup s).
Proof. intros s; apply jobs_ok_work, monitorCleanup_frame. Qed.

Lemma monitorEffect_jobs_ok : forall u0 s, jobs_ok s -> jobs_ok (monitorEffect u0 s).
Proof.
  intros u0 s H; unfold monitorEffect.
  destruct (isAutoMonitoring (session u0) && isMonitoringCapable (session u0)).
  - pose proof (invokeAnalyze_jobs_ok u0 s H) as H'.
    destruct (invokeAnalyze u0 s); exact H'.
  - destruct (monitoringIntervalRef (hooks s)); [destruct s|]; exact H.
Qed.

#[local] Hint Resolve stopCamera_jobs_ok cameraEffect_jobs_ok monitorCleanup_jobs_ok
  monitorEffect_jobs_ok : frame.

Lemma render_round_jobs_ok : forall s, jobs_ok s -> jobs_ok (render_round s).
Proof.
  intros s H; unfold render_round, run_effects, cameraCleanup.
  assert (H1 : jobs_ok (commit_refs s)) by (destruct s; exact H).
  revert H1; generalize (commit_refs s); intros s1 H1.
  match goal with |- jobs_ok (set_hooks _ ?t) => cut (jobs_ok t); [destruct t; auto|] end.
  destruct (negb _), (negb _), (isSome _), (isSome _); simpl; auto 8 with frame.
Qed.

Lemma settle_jobs_ok : forall n s, jobs_ok s -> jobs_ok (settle n s).
Proof.
  induction n as [|n IH]; intros s H; simpl; [exact H|].
  destruct (stable s); [exact H|]. apply IH, render_round_jobs_ok, H.
Qed.

Lemma Forall_drop_job : forall k l, Forall job_ok l -> Forall job_ok (drop_job k l).
Proof.
  intros k l H; apply Forall_forall; intros j Hj.
  unfold drop_job in Hj; apply filter_In in Hj as [Hj _].
  exact (proj1 (Forall_forall _ _) H j Hj).
Qed.

Lemma handle_jobs_ok : forall e s, jobs_ok s -> jobs_ok (handle e s).
Proof.
  intros e s H; destruct e; simpl; try exact H.
  - destruct (isMonitoringCapable _); [|exact H].
    eapply jobs_ok_work; [apply setIsAutoMonitoring_frame | exact H].
  - destruct (_ || _); [exact H | apply invokeAnalyze_jobs_ok, H].
  - destruct (inputMode (session (ui s))); exact H.
  - destruct (inputMode (session (ui s))); exact H.
  - destruct (pendingReads (dom s)); exact H.
  - destruct (pendingCamera (dom s)); exact H.
  - destruct (pendingCamera (dom s)); exact H.
  - destruct (webcamRef (dom s)) as [[[]]|]; exact H.
  - destruct (fileVideoRef (dom s)); exact H.
  - destruct (find_interval id (intervals (hooks s))) as [u0|]; [|exact H].
    unfold monitorTick; destruct (isLoading (cur_analysis u0)); [exact H|].
    apply invokeAnalyze_jobs_ok, H.
  - destruct (find_job j (jobs (work s))) as [jb|] eqn:F; [|exact H].
    destruct (job_stage jb) eqn:G; [|exact H].
    unfold advanceJob; destruct failure as [msg|].
    + apply Forall_drop_job, H.
    + unfold jobs_ok; simpl; apply Forall_forall; intros i Hi.
      apply in_map_iff in Hi as [i0 [Hi0 Hin]].
      destruct (Nat.eqb (job_id i0) (job_id jb)); subst.
      * intros ctx E; simpl in E; inversion E; eexists; reflexivity.
      * exact (proj1 (Forall_forall _ _) H i Hin).
  - destruct (find_job j (jobs (work s))) as [jb|]; [|exact H].
    destruct (job_stage jb); [exact H|].
    unfold resolveJob, jobs_ok; simpl; apply Forall_drop_job, H.
  - destruct (find_job j (jobs (work s))) as [jb|]; [|exact H].
    destruct (job_stage jb); [exact H|].
    unfold rejectJob, jobs_ok; simpl; apply Forall_drop_job, H.
Qed.

Lemma step_jobs_ok : forall s e, jobs_ok s -> jobs_ok (step s e).
Proof. intros s e H; apply settle_jobs_ok, handle_jobs_ok, H. Qed.

Lemma reachable_jobs_ok : forall es, jobs_ok (run mounted es).
Proof.
  assert (G : forall es s, jobs_ok s -> jobs_ok (run s es)).
  { induction es as [|e es IH]; intros s H; [exact H|].
    rewrite run_cons; apply IH, step_jobs_ok, H. }
  intros es; apply G; constructor.
Qed.

(* ================================================================== *)
(** * The claims *)

(** C1 (code_bug). The interval callback tests [analysis.isLoading] of the
    render that armed it, and the monitoring effect does not list
    [analysis.isLoading] among its dependencies: while the first call is
    still in flight (the current state has [isLoading = true]), the next tick
    issues a second call. *)
Theorem at_most_one_in_flight_fails :
  let s1 := run mounted trace_first_call in
  isLoading (cur_analysis (ui s1)) = true /\ in_flight s1 = 1%nat /\
  clientCalls (work s1) = 1%nat /\
  let s2 := run s1 [Tick 1; Advance 1 None] in
  in_flight s2 = 2%nat /\ clientCalls (work s2) = 2%nat.
Proof. vm_compute. repeat split. Qed.

(** C2 (corrected). Each step leaves the history as it was, or empty for a
    gallery selection, followed by at most one new entry, appended by a
    successful completion; in every reachable state the timestamps are
    non-decreasing and the length is the number of successful completions
    since the last gallery selection. *)
Theorem history_ledger_append_only :
  (forall s e,
     history (ui (step s e)) = ((if is_reset e then [] else history (ui s)) ++ appended s e)%list /\
     length (appended s e) = (if succeeded s e then 1 else 0)%nat) /\
  (forall es,
     Sorted Z.le (map timestamp (history (ui (run mounted es)))) /\
     length (history (ui (run mounted es))) = completions mounted es 0).
Proof.
  split.
  - intros s e; split; [apply step_history_now | apply appended_length].
  - assert (G : forall es s n, ledger_ok s -> length (history (ui s)) = n ->
                ledger_ok (run s es) /\ length (history (ui (run s es))) = completions s es n).
    { induction es as [|e es IH]; intros s n Hok Hlen; [split; assumption|].
      rewrite run_cons; simpl; apply IH; [apply step_ledger_ok, Hok|].
      rewrite (proj1 (step_history_now s e)), length_app, appended_length.
      destruct e; simpl; try lia.
      destruct (find_job j (jobs (work s))) as [jb|]; [destruct (job_stage jb)|]; simpl; lia. }
    intros es; destruct (G es mounted 0%nat) as [[Hs _] Hl];
      [split; [rewrite mounted_history; constructor | rewrite mounted_history; constructor]
      | rewrite mounted_history; reflexivity |].
    split; assumption.
Qed.

(** C5 (confirmed). When a waiting call completes successfully, the
    appended entry carries the telemetry from which that call's augmented
    context was composed: the value of the render the run of
    [handleAnalyze] closes over, not the telemetry current at completion. *)
Theorem telemetry_snapshot_fidelity : forall es k r j ctx,
  find_job k (jobs (work (run mounted es))) = Some j ->
  job_stage j = Calling ctx ->
  exists c ts it,
    history (ui (step (run mounted es) (Resolve k r))) = (history (ui (run mounted es)) ++ [it])%list /\
    ctx = augmentedContext c (telemetry it) ts.
Proof.
  intros es k r j ctx F G.
  assert (Hj : job_ok j).
  { apply find_some in F as [Hin _].
    exact (proj1 (Forall_forall _ _) (reachable_jobs_ok es) j Hin). }
  destruct (Hj ctx G) as [ts Hts].
  exists (context (session (job_ui j))), ts,
    (mkItem (now (work (run mounted es))) (cur_telemetry (job_ui j)) r).
  split; [|exact Hts].
  rewrite (proj1 (step_history_now _ _)); simpl; rewrite F, G; reflexivity.
Qed.

Lemma telemetry_snapshot_fidelity_witness :
  find_job 0 (jobs (work (run mounted trace_fidelity))) = Some job_fidelity /\
  job_stage job_fidelity = Calling ctx_fidelity /\
  exists c ts it,
    history (ui (step (run mounted trace_fidelity) (Resolve 0 okResult))) =
      (history (ui (run mounted trace_fidelity)) ++ [it])%list /\
    ctx_fidelity = augmentedContext c (telemetry it) ts.
Proof.
  split; [vm_compute; reflexivity|].
  split; [vm_compute; reflexivity|].
  apply (telemetry_snapshot_fidelity trace_fidelity 0 okResult job_fidelity ctx_fidelity);
    vm_compute; reflexivity.
Defined.

(** C9 (code_bug). Leaving CAMERA mode with a live stream: the
    [<video ref={webcamRef}>] is unmounted by the commit, so when the camera
    effect's cleanup and setup call [stopCamera], [webcamRef.current] is
    [null] and nothing is released. *)
Theorem camera_teardown_incomplete :
  let s1 := run mounted [LiveCameraClick; CameraGranted 0 noCaps] in
  streams (dom s1) = [mkStream 0 [true]] /\
  option_map srcObject (webcamRef (dom s1)) = Some (Some 0%nat) /\
  let s2 := step s1 FileUploadClick in
  inputMode (session (ui s2)) = UPLOAD /\
  streams (dom s2) = [mkStream 0 [true]] /\
  videoTrack (camera (ui s2)) = Some 0%nat /\
  capabilities (camera (ui s2)) = Some noCaps.
Proof. vm_compute. repeat split. Qed.

(** ** Shapes of the rendered numbers *)

Lemma str_length_app : forall a b, String.length (a ++ b) = (String.length a + String.length b)%nat.
Proof. induction a as [|c a IH]; intros b; simpl; [reflexivity | rewrite IH; reflexivity]. Qed.

Lemma all_digits_app : forall a b, all_digits (a ++ b) = all_digits a && all_digits b.
Proof.
  induction a as [|c a IH]; intros b; simpl; [reflexivity | rewrite IH, andb_assoc; reflexivity].
Qed.

Lemma is_digit_digit : forall k, 0 <= k <= 9 -> is_digit (digit k) = true.
Proof.
  intros k Hk.
  assert (k = 0 \/ k = 1 \/ k = 2 \/ k = 3 \/ k = 4 \/ k = 5 \/ k = 6 \/ k = 7 \/ k = 8 \/ k = 9)
    as H by lia.
  repeat destruct H as [-> | H]; [reflexivity ..|subst; reflexivity].
Qed.

Lemma digit_mod : forall k, is_digit (digit (k mod 10)) = true.
Proof. intros k; apply is_digit_digit; pose proof (Z.mod_pos_bound k 10); lia. Qed.

Lemma pad_props : forall n k,
  String.length (pad n k) = n /\ all_digits (pad n k) = true.
Proof.
  induction n as [|n IH]; intros k; cbn [pad]; [split; reflexivity|].
  destruct (IH (k / 10)) as [L D].
  rewrite str_length_app, all_digits_app, L, D.
  cbn [String.length all_digits]; rewrite digit_mod; split; [lia | reflexivity].
Qed.

Lemma pad_digits_of_length : forall n k, digits_of_length n (pad n k) = true.
Proof.
  intros n k; unfold digits_of_length; destruct (pad_props n k) as [-> ->].
  rewrite Nat.eqb_refl; reflexivity.
Qed.

Lemma dec_digits_props : forall f k, 0 <= k ->
  all_digits (dec_digits f k) = true /\ (f <> O -> dec_digits f k <> "").
Proof.
  induction f as [|f IH]; intros k Hk; cbn [dec_digits].
  - split; [reflexivity | congruence].
  - destruct (k <? 10) eqn:E.
    + apply Z.ltb_lt in E; cbn [all_digits]; rewrite is_digit_digit by lia.
      split; [reflexivity | discriminate].
    + destruct (IH (k / 10)) as [D _]; [apply Z.div_pos; lia|].
      rewrite all_digits_app, D; cbn [all_digits andb]; rewrite digit_mod.
      split; [reflexivity|].
      intros _ Hc; apply (f_equal String.length) in Hc.
      rewrite str_length_app in Hc; cbn [String.length] in Hc; lia.
Qed.

Lemma toFixed2_shape : forall x, below_1e21 x = true -> twoDecimal (toFixed2 x).
Proof.
  intros x B; unfold below_1e21, toFixed2 in *.
  destruct (FloatOps.Prim2SF x) as [sg|sg| |sg m e]; try discriminate B.
  - exists "", "0", "00"; split; [reflexivity|]. split; [left; reflexivity|].
    split; [discriminate|]. split; reflexivity.
  - unfold exact_value in *.
    set (num := Z.pos m * 2 ^ Z.max 0 e) in *; set (den := 2 ^ Z.max 0 (- e)) in *.
    assert (Hnum : 0 <= num) by (unfold num; apply Z.mul_nonneg_nonneg; [lia | apply Z.pow_nonneg; lia]).
    assert (Hden : 0 < den) by (unfold den; apply Z.pow_pos_nonneg; lia).
    apply Z.ltb_lt in B.
    replace (10 ^ 21 * den <=? num) with false by (symmetry; apply Z.leb_gt; lia).
    set (n := (200 * num + den) / (2 * den)).
    assert (Hn : 0 <= n) by (apply Z.div_pos; lia).
    exists (if sg then "-" else ""), (z_to_dec (n / 100)), (pad 2 (n mod 100)).
    destruct (dec_digits_props (S (Z.to_nat (Z.log2 (n / 100)))) (n / 100)) as [D NE];
      [apply Z.div_pos; lia|].
    split; [reflexivity|]. split; [destruct sg; auto|].
    split; [apply NE; discriminate|]. split; [exact D | apply pad_digits_of_length].
Qed.

Lemma toISOString_shape : forall ms, iso8601 (toISOString ms).
Proof.
  intros ms; unfold toISOString.
  destruct (civil_from_days (ms / 86400000)) as [[y m] d].
  set (msd := ms mod 86400000).
  exists (iso_year y), (pad 2 m), (pad 2 d), (pad 2 (msd / 3600000)),
    (pad 2 ((msd / 60000) mod 60)), (pad 2 ((msd / 1000) mod 60)), (pad 3 (msd mod 1000)).
  split; [reflexivity|].
  split; [|repeat split; apply pad_digits_of_length].
  unfold isoYear, iso_year; destruct ((0 <=? y) && (y <=? 9999)).
  - left; apply pad_digits_of_length.
  - right; eexists; eexists; split; [reflexivity|].
    split; [destruct (y <? 0); auto | apply pad_digits_of_length].
Qed.

Lemma augmentedContext_shape : forall c t now,
  below_1e21 (temperature t) = true -> below_1e21 (pressure t) = true ->
  exists temp pres ts,
    augmentedContext c t now =
      c ++ nl ++ nl ++ "[REAL-TIME TELEMETRY]" ++ nl ++
      "Temperature: " ++ temp ++ " °C" ++ nl ++
      "Pressure: " ++ pres ++ " kPa" ++ nl ++
      "Timestamp: " ++ ts /\
    twoDecimal temp /\ twoDecimal pres /\ iso8601 ts.
Proof.
  intros c t now BT BP.
  exists (toFixed2 (temperature t)), (toFixed2 (pressure t)), (toISOString now).
  split; [reflexivity|].
  split; [apply toFixed2_shape, BT|].
  split; [apply toFixed2_shape, BP | apply toISOString_shape].
Qed.




(** ** Failures of the analysis call *)

Lemma errorMessage_nonempty : forall msg, errorMessage msg <> "".
Proof.
  intros msg; unfold errorMessage.
  destruct (String.eqb msg "") eqn:E; [discriminate|].
  intros ->; discriminate E.
Qed.

Lemma stable_ext : forall a b,
  session (ui a) = session (ui b) -> dom a = dom b -> hooks a = hooks b ->
  stable a = stable b.
Proof.
  intros a b S D H; unfold stable, refs_consistent, monitor_deps; rewrite S, D, H; reflexivity.
Qed.

Lemma settle_stable_id : forall n s, stable s = true -> settle n s = s.
Proof. intros [|n] s H; simpl; [reflexivity | rewrite H; reflexivity]. Qed.

Lemma rejectJob_shape : forall j msg s,
  session (ui (rejectJob j msg s)) = session (ui s) /\
  cur_analysis (ui (rejectJob j msg s)) = mkAnalysis false None (Some (errorMessage msg)) /\
  history (ui (rejectJob j msg s)) = history (ui s) /\
  dom (rejectJob j msg s) = dom s /\ hooks (rejectJob j msg s) = hooks s.
Proof. intros j msg [u d h w]; repeat split. Qed.

(** C3 (corrected). In the App of ExperimentTimeline.tsx, when a waiting
    call rejects, the error is published (a non-empty message), loading
    ends, the history is unchanged, and the session (with
    [isAutoMonitoring]), the timers and the effects' state stay as they
    were, so the monitoring loop keeps running. The older App of
    part_000 publishes the error the same way and leaves the history
    alone, but its [catch] block sets [isAutoMonitoring] to false. *)
Theorem analysis_failure_keeps_monitoring :
  (forall es k msg j ctx,
     find_job k (jobs (work (run mounted es))) = Some j -> job_stage j = Calling ctx ->
     let s := run mounted es in
     let s' := step s (Reject k msg) in
     (exists m, error (cur_analysis (ui s')) = Some m /\ m <> "") /\
     isLoading (cur_analysis (ui s')) = false /\
     history (ui s') = history (ui s) /\
     session (ui s') = session (ui s) /\
     hooks s' = hooks s) /\
  (forall j msg s,
     error (cur_analysis (ui (rejectJob_v0 j msg s))) = Some (errorMessage msg) /\
     history (ui (rejectJob_v0 j msg s)) = history (ui s) /\
     isAutoMonitoring (session (ui (rejectJob_v0 j msg s))) = false).
Proof.
  split.
  - intros es k msg j ctx F G s s'.
    assert (Hst : stable s = true) by (apply reachable_stable; exists es; reflexivity).
    assert (Hh : handle (Reject k msg) s = rejectJob j msg s)
      by (simpl; fold s in F; rewrite F, G; reflexivity).
    destruct (rejectJob_shape j msg s) as (A & B & C & D & E).
    assert (Hs' : s' = rejectJob j msg s).
    { unfold s', step; rewrite Hh; apply settle_stable_id.
      rewrite (stable_ext _ s); assumption. }
    rewrite Hs', B; cbn [error isLoading].
    split; [exists (errorMessage msg); split; [reflexivity | apply errorMessage_nonempty]|].
    split; [reflexivity|]. split; [exact C|]. split; [exact A | exact E].
  - intros j msg [u d h w]; repeat split.
Qed.

Lemma analysis_failure_keeps_monitoring_witness :
  find_job 0 (jobs (work (run mounted trace_fidelity))) = Some job_fidelity /\
  job_stage job_fidelity = Calling ctx_fidelity /\
  let s := run mounted trace_fidelity in
  let s' := step s (Reject 0 "Network error") in
  (exists m, error (cur_analysis (ui s')) = Some m /\ m <> "") /\
  isLoading (cur_analysis (ui s')) = false /\
  history (ui s') = history (ui s) /\
  session (ui s') = session (ui s) /\
  hooks s' = hooks s.
Proof.
  assert (F : find_job 0 (jobs (work (run mounted trace_fidelity))) = Some job_fidelity)
    by (vm_compute; reflexivity).
  assert (G : job_stage job_fidelity = Calling ctx_fidelity) by (vm_compute; reflexivity).
  split; [exact F|]. split; [exact G|].
  exact (proj1 analysis_failure_keeps_monitoring trace_fidelity 0%nat "Network error"
           job_fidelity ctx_fidelity F G).
Defined.

(** The older App's [catch] stops a running monitoring loop: with the
    camera monitoring and a call waiting, the rejection turns
    [isAutoMonitoring] off. *)
Lemma failure_stops_monitoring_v0 :
  isAutoMonitoring (session (ui (run mounted trace_fidelity))) = true /\
  isAutoMonitoring (session (ui (rejectJob_v0 job_fidelity "Network error"
                                   (run mounted trace_fidelity)))) = false.
Proof. vm_compute; split; reflexivity. Qed.

(** ** preprocessImage *)

(** C7 (code_bug). The preprocessor of ExperimentTimeline.tsx always
    resolves, with the unmodified input on any load error, missing
    context or drawing exception; the one of part_000, whose [onload] has
    no [try]/[catch], never settles when the drawing throws. *)
Theorem preprocess_total_fails_v0 :
  (forall env source, preprocessImage env source <> Pending) /\
  (forall env source, render_failed env = true -> preprocessImage env source = Resolved source) /\
  preprocessImage_v0 (mkImageEnv true true None) "data:image/png;base64,QUJD" = Pending.
Proof.
  split; [|split; [|reflexivity]].
  - intros [[] [] [u|]] source; unfold preprocessImage; simpl; discriminate.
  - intros [[] [] [u|]] source H; unfold preprocessImage, render_failed in *; simpl in *;
      first [reflexivity | discriminate H].
Qed.

Lemma preprocess_total_fails_v0_witness :
  render_failed (mkImageEnv true true None) = true /\
  preprocessImage (mkImageEnv true true None) "data:image/png;base64,QUJD" =
    Resolved "data:image/png;base64,QUJD".
Proof.
  assert (H : render_failed (mkImageEnv true true None) = true) by reflexivity.
  split; [exact H|].
  exact (proj1 (proj2 preprocess_total_fails_v0) _ "data:image/png;base64,QUJD" H).
Defined.

(** ** Cycles with missing inputs *)

(** C8 (confirmed). With an empty context or no frame, [handleAnalyze]
    returns the state unchanged: no call, no error, no loading flag, no
    history entry; [captureFrame] returns [null] while the element has
    [readyState < 2] and when the drawing fails. *)
Theorem missing_inputs_noop :
  (forall u m s,
     context (session u) = "" \/ truthy_str (imageToAnalyze u m (dom s)) = false ->
     handleAnalyze u m s = s) /\
  (forall u d v, frameSource u d = Some v -> (readyState v < 2)%nat -> captureFrame u d = None) /\
  (forall u d v, frameSource u d = Some v ->
     (forall url, drawResult v <> DrawOk url) -> captureFrame u d = None).
Proof.
  split; [|split].
  - intros u m s H; unfold handleAnalyze.
    destruct (imageToAnalyze u m (dom s)) as [img|] eqn:E; [|reflexivity].
    destruct H as [H|H].
    + rewrite H; cbn [String.eqb]; rewrite orb_true_r; reflexivity.
    + rewrite H; reflexivity.
  - intros u d v F H; unfold captureFrame; rewrite F.
    apply Nat.ltb_lt in H; rewrite H; reflexivity.
  - intros u d v F H; unfold captureFrame; rewrite F.
    destruct (readyState v <? 2)%nat; [reflexivity|].
    destruct (drawResult v) as [url| |]; [exfalso; exact (H url eq_refl) | reflexivity ..].
Qed.

Lemma missing_inputs_noop_witness :
  handleAnalyze (ui mounted) None mounted = mounted /\
  captureFrame (ui (run mounted [LiveCameraClick])) (dom (run mounted [LiveCameraClick])) = None /\
  captureFrame (ui (run mounted [LiveCameraClick; CameraGranted 0 noCaps; WebcamData DrawThrows]))
    (dom (run mounted [LiveCameraClick; CameraGranted 0 noCaps; WebcamData DrawThrows])) = None.
Proof.
  destruct missing_inputs_noop as (P1 & P2 & P3).
  split; [apply P1; left; reflexivity|].
  split; [apply (P2 _ _ freshVideo); vm_compute; [reflexivity | repeat constructor]|].
  apply (P3 _ _ (mkVideo (Some 0%nat) 4 DrawThrows)); [vm_compute; reflexivity|].
  intros url; discriminate.
Defined.

(** ** Gating of auto-monitoring *)



Lemma capable_core : forall x, isMonitoringCapable (core x) = isMonitoringCapable x.
Proof. intros [[] [[]|] a c t p i v]; reflexivity. Qed.

Lemma auto_gated_capable : forall x, isMonitoringCapable x = true -> auto_gated x = true.
Proof. intros x H; unfold auto_gated; rewrite H; destruct (isAutoMonitoring x); reflexivity. Qed.

Lemma auto_gated_off : forall x, isAutoMonitoring x = false -> auto_gated x = true.
Proof. intros x H; unfold auto_gated; rewrite H; reflexivity. Qed.

Lemma cameraEffect_auto_gated : forall u0 t,
  core (session (ui t)) = core (session u0) ->
  auto_gated (session (ui (cameraEffect u0 t))) = true.
Proof.
  intros u0 t Hc.
  assert (Cap : forall y, core y = core (session u0) ->
            isMonitoringCapable y = isMonitoringCapable (session u0)).
  { intros y Hy; rewrite <- capable_core, Hy, capable_core; reflexivity. }
  destruct (cameraEffect_frame u0 t) as (A & _).
  unfold cameraEffect in *.
  destruct (inputMode (session u0)) eqn:M.
  - destruct (is_video (uploadType (session u0))) eqn:V.
    + apply auto_gated_capable; rewrite Cap by congruence.
      unfold isMonitoringCapable; rewrite M; exact V.
    + apply auto_gated_off; apply setIsAutoMonitoring_frame.
  - apply auto_gated_capable; rewrite Cap by congruence.
    unfold isMonitoringCapable; rewrite M; reflexivity.
Qed.

Lemma set_hooks_ui : forall h s, ui (set_hooks h s) = ui s.
Proof. reflexivity. Qed.

Lemma render_round_auto_gated : forall s,
  auto_gated (session (ui s)) = true -> auto_gated (session (ui (render_round s))) = true.
Proof.
  intros s H; unfold render_round; rewrite set_hooks_ui.
  set (u0 := ui (commit_refs s)).
  set (c3 := negb (opt_eqb MonitorDeps_eqb (deps_monitor (hooks (commit_refs s)))
                     (Some (monitor_deps u0)))).
  set (m2 := isSome (deps_camera (hooks (commit_refs s)))).
  set (m3 := isSome (deps_monitor (hooks (commit_refs s)))).
  destruct (negb (opt_eqb InputMode_eqb (deps_camera (hooks (commit_refs s)))
                    (Some (inputMode (session u0))))).
  - unfold run_effects; cbn [andb].
    set (t := if m2 then cameraCleanup (commit_refs s) else commit_refs s).
    set (t' := if c3 && m3 then monitorCleanup t else t).
    assert (Ht : frame_rel (commit_refs s) t')
      by (unfold t', t, cameraCleanup; destruct m2, (c3 && m3);
          first [ apply frame_rel_refl | apply frame_stopCamera | apply frame_monitorCleanup
                | eapply frame_rel_trans; [apply frame_stopCamera | apply frame_monitorCleanup] ]).
    assert (Hc : core (session (ui t')) = core (session u0)) by (symmetry; apply Ht).
    destruct c3.
    + rewrite (proj1 (monitorEffect_frame _ _)); apply cameraEffect_auto_gated; exact Hc.
    + apply cameraEffect_auto_gated; exact Hc.
  - rewrite run_effects_no_camera_session; exact H.
Qed.

Lemma settle_auto_gated : forall n s,
  auto_gated (session (ui s)) = true -> auto_gated (session (ui (settle n s))) = true.
Proof.
  induction n as [|n IH]; intros s H; simpl; [exact H|].
  destruct (stable s); [exact H | apply IH, render_round_auto_gated, H].
Qed.

Lemma session_invokeAnalyze : forall u s, session (ui (invokeAnalyze u s)) = session (ui s).
Proof. intros u s; apply invokeAnalyze_frame. Qed.

Lemma session_monitorTick : forall u s, session (ui (monitorTick u s)) = session (ui s).
Proof. intros u s; unfold monitorTick; destruct (isLoading _); [reflexivity | apply session_invokeAnalyze]. Qed.

Lemma session_advanceJob : forall j f s, session (ui (advanceJob j f s)) = session (ui s).
Proof. intros j [m|] [u d h w]; reflexivity. Qed.

Lemma session_resolveJob : forall j r s, session (ui (resolveJob j r s)) = session (ui s).
Proof. intros j r [u d h w]; reflexivity. Qed.

Lemma handle_auto_gated : forall e s,
  auto_gated (session (ui s)) = true -> auto_gated (session (ui (handle e s))) = true.
Proof.
  intros e [[[mode ut auto c th pr ip vf] cam tel an hist] d h w] H;
    destruct e, mode, ut as [[]|]; unfold handle;
    cbn -[invokeAnalyze monitorTick advanceJob resolveJob rejectJob auto_gated];
    crush_matches;
    rewrite ?session_invokeAnalyze, ?session_monitorTick, ?session_advanceJob,
      ?session_resolveJob, ?(proj1 (rejectJob_shape _ _ _));
    try exact H;
    try (apply auto_gated_off; reflexivity);
    try (apply auto_gated_capable; reflexivity).
  all: unfold auto_gated, isMonitoringCapable in *; cbn in *;
    destruct auto; cbn in *; try reflexivity; try exact H.
Qed.

Lemma step_auto_gated : forall s e,
  auto_gated (session (ui s)) = true -> auto_gated (session (ui (step s e))) = true.
Proof. intros s e H; apply settle_auto_gated, handle_auto_gated, H. Qed.

Lemma run_auto_gated : forall es s,
  auto_gated (session (ui s)) = true -> auto_gated (session (ui (run s es))) = true.
Proof.
  induction es as [|e es IH]; intros s H; [exact H|].
  rewrite run_cons; apply IH, step_auto_gated, H.
Qed.

(** ** Live intervals *)

Lemma hooks_invokeAnalyze : forall u s, hooks (invokeAnalyze u s) = hooks s.
Proof. intros u s; apply invokeAnalyze_frame. Qed.

Lemma hooks_monitorTick : forall u s, hooks (monitorTick u s) = hooks s.
Proof. intros u s; unfold monitorTick; destruct (isLoading _); [reflexivity | apply hooks_invokeAnalyze]. Qed.

Lemma hooks_advanceJob : forall j f s, hooks (advanceJob j f s) = hooks s.
Proof. intros j [m|] [u d h w]; reflexivity. Qed.

Lemma hooks_resolveJob : forall j r s, hooks (resolveJob j r s) = hooks s.
Proof. intros j r [u d h w]; reflexivity. Qed.

Lemma handle_hooks : forall e s, hooks (handle e s) = hooks s.
Proof.
  intros e [u d h w]; destruct e; unfold handle;
    cbn -[invokeAnalyze monitorTick advanceJob resolveJob rejectJob];
    crush_matches;
    rewrite ?hooks_invokeAnalyze, ?hooks_monitorTick, ?hooks_advanceJob,
      ?hooks_resolveJob, ?(proj2 (proj2 (proj2 (proj2 (rejectJob_shape _ _ _)))));
    reflexivity.
Qed.

Lemma filter_all_removed : forall (l : list (nat * UI)) id,
  (forall p, In p l -> Some (fst p) = Some id) ->
  filter (fun p => negb (Nat.eqb (fst p) id)) l = [].
Proof.
  induction l as [|p l IH]; intros id H; [reflexivity|]; simpl.
  assert (E : fst p = id) by (injection (H p (or_introl eq_refl)); trivial).
  rewrite E, Nat.eqb_refl; simpl; apply IH; intros q Hq; apply H; right; exact Hq.
Qed.

Lemma monitorEffect_intervals : forall u0 t,
  intervals (hooks t) = [] ->
  forall p, In p (intervals (hooks (monitorEffect u0 t))) ->
    monitoringIntervalRef (hooks (monitorEffect u0 t)) = Some (fst p) /\ snd p = u0 /\
    isAutoMonitoring (session u0) && isMonitoringCapable (session u0) = true.
Proof.
  intros u0 t E p Hin; unfold monitorEffect in *.
  destruct (isAutoMonitoring (session u0) && isMonitoringCapable (session u0)) eqn:G.
  - rewrite hooks_invokeAnalyze in *; cbn in Hin |- *; rewrite E in Hin.
    destruct Hin as [<- | []]; split; [|split]; reflexivity || exact G.
  - destruct (monitoringIntervalRef (hooks t)) as [id|].
    + unfold clearInterval in Hin; cbn in Hin; rewrite E in Hin; destruct Hin.
    + rewrite E in Hin; destruct Hin.
Qed.

Lemma run_effects_no_monitor_hooks : forall u0 c2 m2 m3 t,
  intervals (hooks (run_effects u0 c2 false m2 m3 t)) = intervals (hooks t) /\
  monitoringIntervalRef (hooks (run_effects u0 c2 false m2 m3 t)) = monitoringIntervalRef (hooks t).
Proof.
  intros u0 c2 m2 m3 t; unfold run_effects, cameraCleanup; cbn [andb].
  assert (S1 : hooks (if c2 && m2 then stopCamera t else t) = hooks t)
    by (destruct (c2 && m2); [apply stopCamera_frame | reflexivity]).
  destruct c2; [|exact (conj (f_equal intervals S1) (f_equal monitoringIntervalRef S1))].
  destruct (cameraEffect_frame u0 (if true && m2 then stopCamera t else t)) as (_ & _ & _ & I & R & _).
  rewrite I, R, S1; split; reflexivity.
Qed.

Lemma run_effects_rearm : forall u0 c2 m2 m3 t,
  (m3 = false -> intervals (hooks t) = []) ->
  (forall p, In p (intervals (hooks t)) -> monitoringIntervalRef (hooks t) = Some (fst p)) ->
  forall p, In p (intervals (hooks (run_effects u0 c2 true m2 m3 t))) ->
    monitoringIntervalRef (hooks (run_effects u0 c2 true m2 m3 t)) = Some (fst p) /\
    snd p = u0 /\ isAutoMonitoring (session u0) && isMonitoringCapable (session u0) = true.
Proof.
  intros u0 c2 m2 m3 t H0 H1; unfold run_effects, cameraCleanup; cbn [andb].
  set (t1 := if c2 && m2 then stopCamera t else t).
  assert (S1 : hooks t1 = hooks t)
    by (unfold t1; destruct (c2 && m2); [apply stopCamera_frame | reflexivity]).
  set (t2 := if m3 then monitorCleanup t1 else t1).
  assert (E2 : intervals (hooks t2) = []).
  { unfold t2; destruct m3; [|rewrite S1; apply H0; reflexivity].
    unfold monitorCleanup; rewrite S1.
    destruct (monitoringIntervalRef (hooks t)) as [id|] eqn:R.
    - unfold clearInterval; cbn; rewrite S1.
      apply filter_all_removed; intros q Hq; symmetry; apply H1, Hq.
    - rewrite S1; destruct (intervals (hooks t)) as [|q l] eqn:L; [reflexivity|].
      exfalso; pose proof (H1 q (or_introl eq_refl)) as Hq; discriminate Hq. }
  apply monitorEffect_intervals.
  destruct c2; [|exact E2].
  destruct (cameraEffect_frame u0 t2) as (_ & _ & _ & I & _); rewrite I; exact E2.
Qed.

Lemma render_round_intervals_ok : forall s, intervals_ok s -> intervals_ok (render_round s).
Proof.
  intros s J; unfold render_round, intervals_ok; cbn [hooks set_hooks intervals monitoringIntervalRef deps_monitor].
  set (u0 := ui (commit_refs s)).
  set (m3 := isSome (deps_monitor (hooks (commit_refs s)))).
  set (c2 := negb (opt_eqb InputMode_eqb (deps_camera (hooks (commit_refs s)))
                     (Some (inputMode (session u0))))).
  destruct (negb (opt_eqb MonitorDeps_eqb (deps_monitor (hooks (commit_refs s)))
                    (Some (monitor_deps u0)))) eqn:C3.
  - intros p Hin.
    destruct (run_effects_rearm u0 c2 (isSome (deps_camera (hooks (commit_refs s)))) m3
                (commit_refs s)) with (p := p) as (R & U & G); try assumption.
    + unfold m3; rewrite commit_refs_hooks; intros Hm.
      destruct (intervals (hooks s)) as [|q l] eqn:L; [reflexivity|].
      destruct (J q) as (_ & D & _); [rewrite L; left; reflexivity|].
      rewrite D in Hm; discriminate.
    + rewrite commit_refs_hooks; intros q Hq; apply J, Hq.
    + split; [exact R|]. rewrite U; split; [reflexivity | exact G].
  - apply negb_false_iff, (opt_eqb_eq _ MonitorDeps_eqb_eq) in C3.
    rewrite commit_refs_hooks in C3.
    destruct (run_effects_no_monitor_hooks u0 c2 (isSome (deps_camera (hooks (commit_refs s)))) m3
                (commit_refs s)) as [I R].
    rewrite I, R, commit_refs_hooks; intros p Hin.
    destruct (J p Hin) as (R' & D & G).
    split; [exact R'|]. split; [rewrite <- C3; exact D | exact G].
Qed.

Lemma settle_intervals_ok : forall n s, intervals_ok s -> intervals_ok (settle n s).
Proof.
  induction n as [|n IH]; intros s H; simpl; [exact H|].
  destruct (stable s); [exact H | apply IH, render_round_intervals_ok, H].
Qed.

Lemma step_intervals_ok : forall s e, intervals_ok s -> intervals_ok (step s e).
Proof.
  intros s e H; apply settle_intervals_ok.
  unfold intervals_ok; rewrite handle_hooks; exact H.
Qed.

Lemma run_intervals_ok : forall es s, intervals_ok s -> intervals_ok (run s es).
Proof.
  induction es as [|e es IH]; intros s H; [exact H|].
  rewrite run_cons; apply IH, step_intervals_ok, H.
Qed.

Lemma mounted_intervals_ok : intervals_ok mounted.
Proof. intros p Hin; vm_compute in Hin; destruct Hin. Qed.

Lemma mounted_auto_gated : auto_gated (session (ui mounted)) = true.
Proof. vm_compute; reflexivity. Qed.

(** In a stable state the live intervals belong to the current render's
    monitoring settings. *)
Lemma stable_intervals_gated : forall s, stable s = true -> intervals_ok s ->
  intervals (hooks s) <> [] ->
  isAutoMonitoring (session (ui s)) && isMonitoringCapable (session (ui s)) = true.
Proof.
  intros s Hs J Hne.
  destruct (intervals (hooks s)) as [|p l] eqn:L; [congruence|].
  destruct (J p) as (_ & D & G); [rewrite L; left; reflexivity|].
  unfold stable in Hs; apply andb_true_iff in Hs as [_ Hm].
  rewrite D in Hm; apply (opt_eqb_eq _ MonitorDeps_eqb_eq) in Hm.
  injection Hm as EA EM EU _ _ _.
  unfold isMonitoringCapable in *; rewrite <- EA, <- EM, <- EU; exact G.
Qed.

Lemma stable_no_intervals : forall s, stable s = true -> intervals_ok s ->
  isAutoMonitoring (session (ui s)) && isMonitoringCapable (session (ui s)) = false ->
  intervals (hooks s) = [].
Proof.
  intros s Hs J G; destruct (intervals (hooks s)) eqn:L; [reflexivity|].
  rewrite (stable_intervals_gated s Hs J) in G; [discriminate | rewrite L; discriminate].
Qed.

Lemma stable_deps_camera : forall s, stable s = true ->
  deps_camera (hooks s) = Some (inputMode (session (ui s))).
Proof.
  intros s Hs; unfold stable in Hs; apply andb_true_iff in Hs as [Hs _].
  apply andb_true_iff in Hs as [_ Hs]; exact (proj1 (opt_eqb_eq _ InputMode_eqb_eq _ _) Hs).
Qed.

Lemma settle_session : forall n s,
  deps_camera (hooks s) = Some (inputMode (session (ui s))) ->
  session (ui (settle n s)) = session (ui s).
Proof.
  induction n as [|n IH]; intros s H; simpl; [reflexivity|].
  destruct (stable s); [reflexivity|].
  rewrite IH, render_round_session; [reflexivity | exact H |].
  rewrite (proj1 (render_round_deps s)), render_round_inputMode; reflexivity.
Qed.

Lemma settle_core : forall n s, core (session (ui (settle n s))) = core (session (ui s)).
Proof.
  induction n as [|n IH]; intros s; simpl; [reflexivity|].
  destruct (stable s); [reflexivity|].
  rewrite IH; symmetry; apply (render_round_frame s).
Qed.

Lemma reachable_invariants : forall es,
  stable (run mounted es) = true /\ intervals_ok (run mounted es) /\
  auto_gated (session (ui (run mounted es))) = true.
Proof.
  intros es; split; [apply reachable_stable; exists es; reflexivity|].
  split; [apply run_intervals_ok, mounted_intervals_ok | apply run_auto_gated, mounted_auto_gated].
Qed.

Lemma step_invariants : forall es e,
  stable (step (run mounted es) e) = true /\ intervals_ok (step (run mounted es) e) /\
  auto_gated (session (ui (step (run mounted es) e))) = true.
Proof.
  intros es e; pose proof (reachable_invariants (es ++ [e])) as H.
  unfold run in H; rewrite fold_left_app in H; exact H.
Qed.



(** ** Entering camera mode *)

Lemma stable_deps_monitor : forall s, stable s = true ->
  deps_monitor (hooks s) = Some (monitor_deps (ui s)).
Proof.
  intros s Hs; unfold stable in Hs; apply andb_true_iff in Hs as [_ Hs].
  exact (proj1 (opt_eqb_eq _ MonitorDeps_eqb_eq _ _) Hs).
Qed.

Lemma MonitorDeps_eqb_neq_mode : forall a b,
  snd (fst (fst (fst (fst a)))) <> snd (fst (fst (fst (fst b)))) -> MonitorDeps_eqb a b = false.
Proof.
  intros a b H; destruct (MonitorDeps_eqb a b) eqn:E; [|reflexivity].
  apply MonitorDeps_eqb_eq in E; subst; congruence.
Qed.

Lemma handleAnalyze_cycles : forall u m s, cycles (work (handleAnalyze u m s)) = cycles (work s).
Proof.
  intros u m [u' d h w]; unfold handleAnalyze; simpl.
  destruct (imageToAnalyze u m d); [destruct (negb _ || _)|]; reflexivity.
Qed.

Lemma invokeAnalyze_cycles : forall u s, cycles (work (invokeAnalyze u s)) = S (cycles (work s)).
Proof. intros u s; unfold invokeAnalyze; rewrite handleAnalyze_cycles; reflexivity. Qed.

Lemma session_ext : forall a b, core a = core b -> isAutoMonitoring a = isAutoMonitoring b -> a = b.
Proof.
  intros [m u a c t p i v] [m' u' a' c' t' p' i' v'] H A; cbn in A; subst.
  inversion H; reflexivity.
Qed.

(** The render after [handleLiveCameraClick] from a settled UPLOAD state:
    both effects rerun. *)
Lemma render_round_live_camera : forall s x,
  deps_camera (hooks s) = Some UPLOAD -> deps_monitor (hooks s) = Some (monitor_deps (ui s)) ->
  inputMode (session (ui s)) = UPLOAD -> inputMode x = CAMERA ->
  let s1 := set_session x s in
  render_round s1 =
  set_hooks (let h := hooks (monitorEffect (ui s1) (cameraEffect (ui s1)
                      (monitorCleanup (stopCamera (commit_refs s1))))) in
             mkHooks (intervals h) (nextTimer h) (monitoringIntervalRef h) (Some CAMERA)
                     (Some (monitor_deps (ui s1))))
    (monitorEffect (ui s1) (cameraEffect (ui s1) (monitorCleanup (stopCamera (commit_refs s1))))).
Proof.
  intros s x Dc Dm Hm Hx s1; unfold render_round.
  cbn [commit_refs set_session set_ui set_dom hooks ui with_session session s1].
  rewrite Dc, Dm, Hx; cbn [opt_eqb InputMode_eqb negb isSome].
  rewrite MonitorDeps_eqb_neq_mode by (unfold monitor_deps; cbn; rewrite Hm, Hx; discriminate).
  reflexivity.
Qed.

Lemma live_camera_from_upload : forall s,
  stable s = true -> inputMode (session (ui s)) = UPLOAD ->
  let s' := step s LiveCameraClick in
  inputMode (session (ui s')) = CAMERA /\ isAutoMonitoring (session (ui s')) = true /\
  (exists id u0, monitoringIntervalRef (hooks s') = Some id /\ In (id, u0) (intervals (hooks s')) /\
                 session u0 = session (ui s')) /\
  cycles (work s') = S (cycles (work s)).
Proof.
  intros s Hst Hm s'.
  pose proof (stable_deps_camera s Hst) as Dc; rewrite Hm in Dc.
  pose proof (stable_deps_monitor s Hst) as Dm.
  set (x := session (ui s)).
  set (x1 := mkSession CAMERA (uploadType x) true (context x) (thinkingLevel x)
               (enablePreprocessing x) (imagePreview x) (videoFileSrc x)).
  set (s1 := set_session x1 s).
  assert (H1 : handle LiveCameraClick s = s1) by reflexivity.
  assert (N1 : stable s1 = false).
  { unfold stable; replace (hooks s1) with (hooks s) by reflexivity; rewrite Dc.
    cbn [opt_eqb InputMode_eqb]; rewrite andb_false_r; reflexivity. }
  set (u0 := ui s1).
  set (r := monitorCleanup (stopCamera (commit_refs s1))).
  assert (Rs : core (session (ui r)) = core x1).
  { destruct (frame_rel_trans _ _ _ (frame_stopCamera (commit_refs s1))
                (frame_monitorCleanup (stopCamera (commit_refs s1)))) as (A & _).
    unfold r; rewrite <- A; reflexivity. }
  set (r' := cameraEffect u0 r).
  assert (Rs' : session (ui r') = x1).
  { apply session_ext.
    - unfold r'; rewrite (proj1 (cameraEffect_frame u0 r)); exact Rs.
    - unfold r', cameraEffect; cbn [u0 s1 set_session set_ui ui with_session session x1 inputMode].
      apply setIsAutoMonitoring_frame. }
  assert (RR : render_round s1 =
    set_hooks (let h := hooks (monitorEffect u0 r') in
               mkHooks (intervals h) (nextTimer h) (monitoringIntervalRef h) (Some CAMERA)
                       (Some (monitor_deps u0)))
      (monitorEffect u0 r'))
    by (apply render_round_live_camera; [exact Dc | exact Dm | exact Hm | reflexivity]).
  assert (ME : monitorEffect u0 r' =
    let t := invokeAnalyze u0 r' in
    let h := hooks t in
    set_hooks (mkHooks (intervals h ++ [(nextTimer h, u0)]) (S (nextTimer h))
                 (Some (nextTimer h)) (deps_camera h) (deps_monitor h)) t) by reflexivity.
  assert (S2 : session (ui (render_round s1)) = x1).
  { rewrite RR; cbn [set_hooks ui]; rewrite (proj1 (monitorEffect_frame u0 r')); exact Rs'. }
  assert (St2 : stable (render_round s1) = true).
  { unfold stable.
    rewrite <- (refs_consistent_frame _ _ (render_round_frame s1)), commit_refs_consistent.
    destruct (render_round_deps s1) as [-> ->].
    unfold monitor_deps at 2; rewrite S2; cbn [opt_eqb].
    change (Some (inputMode (session (ui s1)))) with (Some CAMERA).
    change (monitor_deps (ui s1)) with (monitor_deps (mkUI x1 (camera (ui s)) (cur_telemetry (ui s))
                                          (cur_analysis (ui s)) (history (ui s)))).
    rewrite MonitorDeps_eqb_refl; reflexivity. }
  assert (E' : s' = render_round s1).
  { unfold s', step; rewrite H1; cbn [settle]; rewrite N1, St2; reflexivity. }
  rewrite E', S2.
  split; [reflexivity|]. split; [reflexivity|].
  split.
  - exists (nextTimer (hooks (invokeAnalyze u0 r'))), u0.
    rewrite RR, ME; cbn [set_hooks hooks monitoringIntervalRef intervals].
    split; [reflexivity|]. split; [apply in_or_app; right; left; reflexivity | reflexivity].
  - rewrite RR, ME; cbn [set_hooks work].
    rewrite invokeAnalyze_cycles.
    unfold r'; rewrite (proj2 (proj2 (proj2 (proj2 (proj2 (cameraEffect_frame u0 r)))))).
    unfold r; rewrite (proj2 (proj2 (monitorCleanup_frame _))).
    rewrite (proj1 (proj2 (proj2 (proj2 (stopCamera_frame _))))).
    reflexivity.
Qed.

(** C10 (confirmed). [handleLiveCameraClick] sets CAMERA mode and
    [isAutoMonitoring] to true, and the camera effect sets it to true in
    every CAMERA render; from any settled UPLOAD state, one click on Live
    Camera leaves CAMERA mode with monitoring on, a live interval armed by
    the monitoring effect for that render, and exactly one call of
    [handleAnalyze] made at once. *)
Theorem camera_mode_arms_monitoring :
  (forall s, inputMode (session (ui (handle LiveCameraClick s))) = CAMERA /\
             isAutoMonitoring (session (ui (handle LiveCameraClick s))) = true) /\
  (forall u0 s, inputMode (session u0) = CAMERA ->
     isAutoMonitoring (session (ui (cameraEffect u0 s))) = true) /\
  (forall es, inputMode (session (ui (run mounted es))) = UPLOAD ->
     let s := run mounted es in
     let s' := step s LiveCameraClick in
     inputMode (session (ui s')) = CAMERA /\ isAutoMonitoring (session (ui s')) = true /\
     (exists id u0, monitoringIntervalRef (hooks s') = Some id /\
                    In (id, u0) (intervals (hooks s')) /\ session u0 = session (ui s')) /\
     cycles (work s') = S (cycles (work s))).
Proof.
  split; [intros s; split; reflexivity|]. split.
  - intros u0 s H; unfold cameraEffect; rewrite H; apply setIsAutoMonitoring_frame.
  - intros es Hm; apply live_camera_from_upload; [|exact Hm].
    apply reachable_stable; exists es; reflexivity.
Qed.

Lemma camera_mode_arms_monitoring_witness :
  isAutoMonitoring (session (ui (cameraEffect (ui (run mounted [LiveCameraClick])) mounted))) = true /\
  cycles (work (step (run mounted []) LiveCameraClick)) = S (cycles (work (run mounted []))).
Proof.
  destruct camera_mode_arms_monitoring as (_ & P2 & P3).
  split; [apply P2; vm_compute; reflexivity|].
  apply (P3 []); vm_compute; reflexivity.
Defined.

(** A gallery selection empties a non-empty history: after one successful
    completion the ledger holds one entry, and [handleGallerySelect]
    replaces it with [[]]. *)
Lemma history_cleared_by_gallery :
  let s := run mounted (trace_first_call ++ [Resolve 0 okResult]) in
  length (history (ui s)) = 1%nat /\
  history (ui (step s (GallerySelect "Titration" "https://example.org/titration.jpg"))) = [].
Proof. vm_compute; split; reflexivity. Qed.
